(** * rafthttp: the HTTP handlers of the peer transport (rafthttp/http.go)

    A shallow embedding of [handler], [snapshotHandler], [streamHandler],
    [checkClusterCompatibilityFromHeader] and [closeNotifier], together with
    the pieces of the Go standard library they rest on ([path], [net/http]
    headers and response writers, channels). *)

From stdpp Require Import gmap strings list.
From Stdlib Require Import ZArith Ascii String List Lia.
From Stdlib.Strings Require Import Byte.
Import ListNotations.

Local Open Scope string_scope.
Local Open Scope Z_scope.

Set Implicit Arguments.

(** ** Go's [path] package (lexical path manipulation on slash-separated
    strings), as far as http.go uses it: [Join], [Dir], [Base]. *)

Module path.

Definition is_slash (c : ascii) : bool := Ascii.eqb c "/".

Fixpoint has_slash (s : string) : bool :=
  match s with
  | EmptyString => false
  | String c r => is_slash c || has_slash r
  end.

(** [Split] cuts right after the final slash; without a slash the
    directory part is empty. *)
Fixpoint Split (p : string) : string * string :=
  match p with
  | EmptyString => (EmptyString, EmptyString)
  | String c r =>
      if has_slash r then (String c (fst (Split r)), snd (Split r))
      else if is_slash c then (String c EmptyString, r)
      else (EmptyString, String c r)
  end.

(** The path elements between slashes (empty elements included). *)
Fixpoint elements (s : string) : list string :=
  match s with
  | EmptyString => [EmptyString]
  | String c r =>
      if is_slash c then EmptyString :: elements r
      else match elements r with
           | e :: es => String c e :: es
           | [] => [String c EmptyString]
           end
  end.

(** The element-by-element pass of [Clean]: empty and [.] elements are
    dropped, [..] removes the element before it, a [..] that cannot
    backtrack is dropped in a rooted path and kept otherwise.  [out] is
    the output so far, last element first. *)
Fixpoint clean_elements (rooted : bool) (els out : list string) : list string :=
  match els with
  | [] => rev out
  | e :: rest =>
      if String.eqb e EmptyString || String.eqb e "." then clean_elements rooted rest out
      else if String.eqb e ".." then
        match out with
        | top :: out' =>
            if String.eqb top ".." then clean_elements rooted rest (e :: out)
            else clean_elements rooted rest out'
        | [] =>
            if rooted then clean_elements rooted rest out
            else clean_elements rooted rest (e :: out)
        end
      else clean_elements rooted rest (e :: out)
  end.

Fixpoint join_elements (els : list string) : string :=
  match els with
  | [] => EmptyString
  | [e] => e
  | e :: rest => e ++ "/" ++ join_elements rest
  end.

Definition Clean (p : string) : string :=
  match p with
  | EmptyString => "."
  | String c _ =>
      let rooted := is_slash c in
      let out := join_elements (clean_elements rooted (elements p) []) in
      if rooted then "/" ++ out
      else if String.eqb out EmptyString then "." else out
  end.

Definition Dir (p : string) : string := Clean (fst (Split p)).

Fixpoint trim_trailing_slashes (s : string) : string :=
  match s with
  | EmptyString => EmptyString
  | String c r =>
      match trim_trailing_slashes r with
      | EmptyString => if is_slash c then EmptyString else String c EmptyString
      | r' => String c r'
      end
  end.

Definition Base (p : string) : string :=
  match p with
  | EmptyString => "."
  | _ =>
      match snd (Split (trim_trailing_slashes p)) with
      | EmptyString => "/"
      | b => b
      end
  end.

(** [Join] starts at the first non-empty element, glues the rest with
    slashes and cleans the result. *)
Fixpoint Join (elem : list string) : string :=
  match elem with
  | [] => EmptyString
  | e :: rest =>
      if String.eqb e EmptyString then Join rest
      else Clean (join_elements elem)
  end.

End path.

(** ** net/http: headers, response writers, errors *)

Definition uint64 := N.

(** [types.ID] is a [uint64]. *)
Definition ID := uint64.

Module http.

Definition to_upper (c : ascii) : ascii :=
  if (Ascii.leb "a" c && Ascii.leb c "z")%bool
  then ascii_of_N (N_of_ascii c - 32) else c.

Definition to_lower (c : ascii) : ascii :=
  if (Ascii.leb "A" c && Ascii.leb c "Z")%bool
  then ascii_of_N (N_of_ascii c + 32) else c.

Fixpoint canonical (upper : bool) (s : string) : string :=
  match s with
  | EmptyString => EmptyString
  | String c r =>
      String (if upper then to_upper c else to_lower c)
             (canonical (Ascii.eqb c "-") r)
  end.

(** [textproto.CanonicalMIMEHeaderKey] on keys made of token bytes (all
    the keys of http.go are): the first letter and every letter after a
    hyphen in upper case, the others in lower case. *)
Definition CanonicalMIMEHeaderKey (s : string) : string := canonical true s.

(** [http.Header] is a [map[string][]string] under canonical keys. *)
Abbreviation Header := (gmap string (list string)).

Definition Get (h : Header) (key : string) : string :=
  match h !! CanonicalMIMEHeaderKey key with
  | Some (v :: _) => v
  | _ => EmptyString
  end.

Definition Set_ (h : Header) (key value : string) : Header :=
  <[CanonicalMIMEHeaderKey key := [value]]> h.

Definition StatusOK : Z := 200.
Definition StatusNoContent : Z := 204.
Definition StatusBadRequest : Z := 400.
Definition StatusNotFound : Z := 404.
Definition StatusMethodNotAllowed : Z := 405.
Definition StatusGone : Z := 410.
Definition StatusPreconditionFailed : Z := 412.
Definition StatusInternalServerError : Z := 500.

(** The state behind an [http.ResponseWriter]: the header map the
    handler edits, the status line and header block once they have been
    written (the first [WriteHeader] wins and freezes the headers),
    the body written so far, and whether it has been flushed. *)
Record ResponseWriter := {
  header : Header;
  sent : option (Z * Header);
  written : string;
  flushed : bool
}.

Definition newResponseWriter : ResponseWriter :=
  {| header := ∅; sent := None; written := EmptyString; flushed := false |}.

Definition HeaderSet (key value : string) (w : ResponseWriter) : ResponseWriter :=
  {| header := Set_ (header w) key value; sent := sent w;
     written := written w; flushed := flushed w |}.

Definition WriteHeader (code : Z) (w : ResponseWriter) : ResponseWriter :=
  match sent w with
  | Some _ => w
  | None => {| header := header w; sent := Some (code, header w);
               written := written w; flushed := flushed w |}
  end.

Definition Write (s : string) (w : ResponseWriter) : ResponseWriter :=
  let w' := WriteHeader StatusOK w in
  {| header := header w'; sent := sent w';
     written := written w' ++ s; flushed := flushed w' |}.

Definition Flush (w : ResponseWriter) : ResponseWriter :=
  let w' := WriteHeader StatusOK w in
  {| header := header w'; sent := sent w';
     written := written w'; flushed := true |}.

(** What the client receives: the status and headers that were written,
    or, when the handler returned without writing any, the implicit 200
    with the headers as they then stand. *)
Definition status (w : ResponseWriter) : Z :=
  match sent w with Some (code, _) => code | None => StatusOK end.

Definition responseHeader (w : ResponseWriter) : Header :=
  match sent w with Some (_, h) => h | None => header w end.

(** The parts of an [http.Request] the handlers look at.  [r.Body] is
    the unread request body of the world the handler runs in. *)
Record Request := {
  Method : string;
  URL_Path : string;
  Header_ : Header
}.

End http.

Abbreviation Header := (gmap string (list string)).

(** A Go [error]: its [Error()] text and, when its dynamic type implements
    [writerToResponse], its [WriteTo] method as a function on the state of
    the response writer it is given. *)
Record error := {
  Error : string;
  WriteTo : option (http.ResponseWriter -> http.ResponseWriter)
}.

Module errors.
Definition New (text : string) : error := {| Error := text; WriteTo := None |}.
End errors.

Inductive result (A : Type) : Type :=
| Ok (a : A)
| Err (err : error).
Arguments Ok {A} a.
Arguments Err {A} err.

(** ** Package-level declarations of http.go *)

Definition ConnReadLimitByte : Z := 64 * 1024.

Definition RaftPrefix : string := "/raft".
Definition ProbingPrefix : string := path.Join [RaftPrefix; "probing"].
Definition RaftStreamPrefix : string := path.Join [RaftPrefix; "stream"].
Definition RaftSnapshotPrefix : string := path.Join [RaftPrefix; "snapshot"].

Definition errIncompatibleVersion : error := errors.New "incompatible version".
Definition errClusterIDMismatch : error := errors.New "cluster ID mismatch".

(** ** What http.go takes from the rest of the repository *)

(** The constants of [streamType] (stream.go). *)
Inductive streamType : Type :=
| streamTypeMessage
| streamTypeMsgAppV2
| streamTypeMsgApp.

(** Modelled from the spec: the string behind a [streamType] constant, which
    stream.go declares.  The spec's path table gives the two that http.go
    converts, [msgapp] and [message]; the third, which http.go never
    converts, is spelled after its name. *)
Definition streamType_string (t : streamType) : string :=
  match t with
  | streamTypeMessage => "message"
  | streamTypeMsgAppV2 => "msgappv2"
  | streamTypeMsgApp => "msgapp"
  end.

(** The request body as the connection will deliver it: [data], and then
    end of file or the read error [fault]. *)
Record Body := {
  data : list Byte.byte;
  fault : option error
}.

(** [raftpb.MessageType] is a protobuf enumeration over [int32]. *)
Definition MessageType := Z.

(** Types and functions declared in other files and packages; http.go
    fixes how they are used, not what they compute. *)
Class Pkg := {
  (* go-semver *)
  Version : Type;
  (* rafthttp/util.go *)
  serverVersion : Header -> Version;
  minClusterVersion : Header -> Version;
  checkVersionCompability : string -> Version -> Version -> option error;
  (* version *)
  version_Version : string;
  (* pkg/types *)
  IDFromString : string -> result ID;
  ID_String : ID -> string;
  (* pkg/ioutil: the error of a read that runs over its limit *)
  errReadLimit : error;
  (* raft/raftpb *)
  Message : Type;
  Message_Type : Message -> MessageType;
  Message_From : Message -> uint64;
  Message_Snapshot_Metadata_Index : Message -> uint64;
  MsgSnap : MessageType;
  Message_Unmarshal : list Byte.byte -> result Message;
  (* rafthttp/msg_codec.go: read one message off the front of the body *)
  messageDecoder_decode : Body -> result Message * Body;
  (* rafthttp/peer.go *)
  Peer : Type
}.

(** Modelled from the spec: [ioutil.ReadAll] over
    [pioutil.NewLimitedBufferReader(body, n)] (pkg/ioutil is not part of
    the sources at hand).  The spec: the body is read up to a fixed byte
    ceiling; exceeding the ceiling or encountering a read error is a
    failed read.  The second component is what is left of the body. *)
Definition readAllLimited `{Pkg} (b : Body) (n : Z) : result (list Byte.byte) * Body :=
  if Z.of_nat (length (data b)) >? n then (Err errReadLimit, b)
  else match fault b with
       | Some err => (Err err, b)
       | None => (Ok (data b), {| data := []; fault := None |})
       end.

(** ** Channels and the close notifier's data *)

(** A channel value is nil or the address of an allocated channel. *)
Inductive chan : Type :=
| nil_chan
| chan_at (addr : nat).

Record closeNotifier := {
  done : chan
}.

Module outgoingConn.
(** [Writer] and [Flusher] are the handler's response writer, of which
    there is one per request. *)
Record type := {
  t : streamType;
  termStr : string;
  Closer : closeNotifier
}.
End outgoingConn.

(** The handler structs.  Their interface fields ([r], [snapSaver],
    [peerGetter]) are the collaborators of the world a handler runs in
    (see [Raft], [SnapshotSaver], [peerGetter] below); what remains are
    the identities. *)
Record handler := { handler_cid : ID }.
Record snapshotHandler := { snapshotHandler_cid : ID }.
Record streamHandler := { streamHandler_id : ID; streamHandler_cid : ID }.

(** plog's entry points and the arguments given to their format strings. *)
Inductive LogLevel := Errorf | Error_ | Warningf | Infof | Debugf.

Inductive LogArg :=
| ArgError (err : error)
| ArgString (s : string)
| ArgID (id : ID)
| ArgUint64 (n : uint64)
| ArgMessageType (t : MessageType).

Section Programs.
Context `{pkg : Pkg}.

(** Every operation by which a handler acts on something outside itself:
    the response writer, the request body, functions of other files, the
    logger, the three collaborators, and channels. *)
Inductive Call : Type -> Type :=
(* w.Header().Set(key, value), w.WriteHeader(code), w.Write(s), Flush() *)
| WHeaderSet (key value : string) : Call unit
| WWriteHeader (code : Z) : Call unit
| WWrite (s : string) : Call unit
| WFlush : Call unit
(* checkVersionCompability(from, server, minCluster) *)
| CheckVersion (from : string) (server minCluster : Version) : Call (option error)
(* ioutil.ReadAll(pioutil.NewLimitedBufferReader(r.Body, n)) *)
| ReadAllLimited (n : Z) : Call (result (list Byte.byte))
(* m.Unmarshal(b) on a fresh raftpb.Message *)
| Unmarshal (b : list Byte.byte) : Call (result Message)
(* (&messageDecoder{r: r.Body}).decode() *)
| Decode : Call (result Message)
| Plog (lvl : LogLevel) (format : string) (args : list LogArg) : Call unit
(* h.r.Process(context.TODO(), m) and h.r.IsIDRemoved(id) *)
| RaftProcess (m : Message) : Call (option error)
| RaftIsIDRemoved (id : uint64) : Call bool
(* h.snapSaver.SaveFrom(r.Body, index) *)
| SnapSaveFrom (index : uint64) : Call (option error)
(* h.peerGetter.Get(id) and p.attachOutgoingConn(conn) *)
| PeerGet (id : ID) : Call (option Peer)
| PeerAttach (p : Peer) (conn : outgoingConn.type) : Call unit
(* v.WriteTo(w) for an error v that is a writerToResponse *)
| ErrWriteTo (v : error) : Call unit
(* make(chan struct{}), close(c), <-c *)
| ChanMake : Call chan
| ChanClose (c : chan) : Call unit
| ChanRecv (c : chan) : Call unit.

(** A call together with what it returned. *)
Inductive Event : Type :=
| Ev {X : Type} (c : Call X) (x : X).

(** Handler code: a tree of calls, each continued on its answer. *)
Inductive Prog (A : Type) : Type :=
| Ret (a : A)
| Vis {X : Type} (c : Call X) (k : X -> Prog A).

Fixpoint bind {A B : Type} (p : Prog A) (f : A -> Prog B) : Prog B :=
  match p with
  | Ret a => f a
  | Vis c k => Vis c (fun x => bind (k x) f)
  end.

Definition call {X : Type} (c : Call X) : Prog X := Vis c (fun x => Ret x).

End Programs.

Arguments Ret {pkg A} a.
Arguments Vis {pkg A X} c k.

Declare Scope prog_scope.
Delimit Scope prog_scope with prog.
Notation "x <- c1 ;; c2" := (bind c1 (fun x => c2))
  (at level 100, c1 at next level, right associativity) : prog_scope.
Notation "c1 ;; c2" := (bind c1 (fun _ => c2))
  (at level 100, right associativity) : prog_scope.
Local Open Scope prog_scope.

(** ** The code of http.go *)

Section Handlers.
Context `{pkg : Pkg}.

Definition newline : string := String (ascii_of_nat 10) EmptyString.

Definition plog (lvl : LogLevel) (format : string) (args : list LogArg) : Prog unit :=
  call (Plog lvl format args).

(** [http.Error]: a plain-text reply with the given status. *)
Definition http_Error (msg : string) (code : Z) : Prog unit :=
  call (WHeaderSet "Content-Type" "text/plain; charset=utf-8") ;;
  call (WHeaderSet "X-Content-Type-Options" "nosniff") ;;
  call (WWriteHeader code) ;;
  call (WWrite (msg ++ newline)).

(** [fmt.Sprintf(prefix + "(%v)", err)]. *)
Definition sprintf_err (prefix : string) (err : error) : string :=
  prefix ++ "(" ++ Error err ++ ")".

Definition checkClusterCompatibilityFromHeader (header : Header) (cid : ID)
  : Prog (option error) :=
  err <- call (CheckVersion (http.Get header "X-Server-From")
                            (serverVersion header) (minClusterVersion header)) ;;
  match err with
  | Some err =>
      plog Errorf "request version incompatibility (%v)" [ArgError err] ;;
      Ret (Some errIncompatibleVersion)
  | None =>
      let gcid := http.Get header "X-Etcd-Cluster-ID" in
      if negb (String.eqb gcid (ID_String cid)) then
        plog Errorf "request cluster ID mismatch (got %s want %s)"
             [ArgString gcid; ArgID cid] ;;
        Ret (Some errClusterIDMismatch)
      else Ret None
  end.

Definition handler_ServeHTTP (h : handler) (r : http.Request) : Prog unit :=
  if negb (String.eqb (http.Method r) "POST") then
    call (WHeaderSet "Allow" "POST") ;;
    http_Error "Method Not Allowed" http.StatusMethodNotAllowed
  else
    call (WHeaderSet "X-Etcd-Cluster-ID" (ID_String (handler_cid h))) ;;
    err <- checkClusterCompatibilityFromHeader (http.Header_ r) (handler_cid h) ;;
    match err with
    | Some err => http_Error (Error err) http.StatusPreconditionFailed
    | None =>
        rd <- call (ReadAllLimited ConnReadLimitByte) ;;
        match rd with
        | Err err =>
            plog Errorf "failed to read raft message (%v)" [ArgError err] ;;
            http_Error "error reading raft message" http.StatusBadRequest
        | Ok b =>
            um <- call (Unmarshal b) ;;
            match um with
            | Err err =>
                plog Errorf "failed to unmarshal raft message (%v)" [ArgError err] ;;
                http_Error "error unmarshaling raft message" http.StatusBadRequest
            | Ok m =>
                perr <- call (RaftProcess m) ;;
                match perr with
                | Some err =>
                    match WriteTo err with
                    | Some _ => call (ErrWriteTo err)
                    | None =>
                        plog Warningf "failed to process raft message (%v)" [ArgError err] ;;
                        http_Error "error processing raft message"
                                   http.StatusInternalServerError
                    end
                | None => call (WWriteHeader http.StatusNoContent)
                end
            end
        end
    end.

Definition snapshotHandler_ServeHTTP (h : snapshotHandler) (r : http.Request)
  : Prog unit :=
  if negb (String.eqb (http.Method r) "POST") then
    call (WHeaderSet "Allow" "POST") ;;
    http_Error "Method Not Allowed" http.StatusMethodNotAllowed
  else
    call (WHeaderSet "X-Etcd-Cluster-ID" (ID_String (snapshotHandler_cid h))) ;;
    err <- checkClusterCompatibilityFromHeader (http.Header_ r) (snapshotHandler_cid h) ;;
    match err with
    | Some err => http_Error (Error err) http.StatusPreconditionFailed
    | None =>
        dm <- call Decode ;;
        match dm with
        | Err err =>
            let msg := sprintf_err "failed to decode raft message " err in
            plog Errorf msg [] ;;
            http_Error msg http.StatusBadRequest
        | Ok m =>
            if negb (Message_Type m =? MsgSnap)%Z then
              plog Errorf "unexpected raft message type %s on snapshot path"
                   [ArgMessageType (Message_Type m)] ;;
              http_Error "wrong raft message type" http.StatusBadRequest
            else
              serr <- call (SnapSaveFrom (Message_Snapshot_Metadata_Index m)) ;;
              match serr with
              | Some err =>
                  let msg := sprintf_err "failed to save KV snapshot " err in
                  plog Error_ msg [] ;;
                  http_Error msg http.StatusInternalServerError
              | None =>
                  plog Infof "received and saved snapshot [index: %d, from: %s] successfully"
                       [ArgUint64 (Message_Snapshot_Metadata_Index m);
                        ArgID (Message_From m)] ;;
                  perr <- call (RaftProcess m) ;;
                  match perr with
                  | Some err =>
                      match WriteTo err with
                      | Some _ => call (ErrWriteTo err)
                      | None =>
                          let msg := sprintf_err "failed to process raft message " err in
                          plog Warningf msg [] ;;
                          http_Error msg http.StatusInternalServerError
                      end
                  | None => call (WWriteHeader http.StatusNoContent)
                  end
              end
        end
    end.

Definition newCloseNotifier : Prog closeNotifier :=
  c <- call ChanMake ;;
  Ret {| done := c |}.

Definition closeNotifier_Close (n : closeNotifier) : Prog (option error) :=
  call (ChanClose (done n)) ;;
  Ret None.

Definition closeNotify (n : closeNotifier) : chan := done n.

(** The [switch] of [streamHandler.ServeHTTP] on [path.Dir(r.URL.Path)];
    [None] is its default branch. *)
Definition streamTypeOfDir (dir : string) : option streamType :=
  if String.eqb dir RaftStreamPrefix then Some streamTypeMsgApp
  else if String.eqb dir (path.Join [RaftStreamPrefix; streamType_string streamTypeMsgApp])
    then Some streamTypeMsgAppV2
  else if String.eqb dir (path.Join [RaftStreamPrefix; streamType_string streamTypeMessage])
    then Some streamTypeMessage
  else None.

Definition streamHandler_ServeHTTP (h : streamHandler) (r : http.Request)
  : Prog unit :=
  if negb (String.eqb (http.Method r) "GET") then
    call (WHeaderSet "Allow" "GET") ;;
    http_Error "Method Not Allowed" http.StatusMethodNotAllowed
  else
    call (WHeaderSet "X-Server-Version" version_Version) ;;
    call (WHeaderSet "X-Etcd-Cluster-ID" (ID_String (streamHandler_cid h))) ;;
    err <- checkClusterCompatibilityFromHeader (http.Header_ r) (streamHandler_cid h) ;;
    match err with
    | Some err => http_Error (Error err) http.StatusPreconditionFailed
    | None =>
        match streamTypeOfDir (path.Dir (http.URL_Path r)) with
        | None =>
            plog Debugf "ignored unexpected streaming request path %s"
                 [ArgString (http.URL_Path r)] ;;
            http_Error "invalid path" http.StatusNotFound
        | Some t =>
            let fromStr := path.Base (http.URL_Path r) in
            match IDFromString fromStr with
            | Err err =>
                plog Errorf "failed to parse from %s into ID (%v)"
                     [ArgString fromStr; ArgError err] ;;
                http_Error "invalid from" http.StatusNotFound
            | Ok from =>
                removed <- call (RaftIsIDRemoved from) ;;
                if removed : bool then
                  plog Warningf "rejected the stream from peer %s since it was removed"
                       [ArgID from] ;;
                  http_Error "removed member" http.StatusGone
                else
                  p <- call (PeerGet from) ;;
                  match p with
                  | None =>
                      plog Errorf "failed to find member %s in cluster %s"
                           [ArgID from; ArgID (streamHandler_cid h)] ;;
                      http_Error "error sender not found" http.StatusNotFound
                  | Some p =>
                      let wto := ID_String (streamHandler_id h) in
                      let gto := http.Get (http.Header_ r) "X-Raft-To" in
                      if negb (String.eqb gto wto) then
                        plog Errorf "streaming request ignored (ID mismatch got %s want %s)"
                             [ArgString gto; ArgString wto] ;;
                        http_Error "to field mismatch" http.StatusPreconditionFailed
                      else
                        call (WWriteHeader http.StatusOK) ;;
                        call WFlush ;;
                        c <- newCloseNotifier ;;
                        let conn := {| outgoingConn.t := t;
                                       outgoingConn.termStr :=
                                         http.Get (http.Header_ r) "X-Raft-Term";
                                       outgoingConn.Closer := c |} in
                        call (PeerAttach p conn) ;;
                        call (ChanRecv (closeNotify c))
                  end
            end
        end
    end.

End Handlers.

(** ** The collaborators

    The three interfaces the handlers are constructed with.  Each method
    acts on the state [S] of whatever stands behind the interface. *)

Class Raft `{Pkg} (S : Type) := {
  Process : Message -> S -> option error * S;
  IsIDRemoved : uint64 -> S -> bool * S
}.

Class SnapshotSaver (S : Type) := {
  SaveFrom : Body -> uint64 -> S -> option error * S
}.

Class peerGetter `{Pkg} (S : Type) := {
  Get : ID -> S -> option Peer * S;
  (* the one method of Peer that http.go calls *)
  attachOutgoingConn : Peer -> outgoingConn.type -> S -> S
}.

(** ** Running a handler *)

Section Semantics.
Context `{pkg : Pkg} {S : Type}.
Context {raft : Raft S} {snapSaver : SnapshotSaver S} {peers : peerGetter S}.

(** The world a handler runs in: its response writer, the unread part
    of the request body, the allocated channels (address [a] is closed
    iff [chans !! a = Some true]), the state of the collaborators, and
    the calls made so far, oldest first. *)
Record World := {
  rw : http.ResponseWriter;
  body : Body;
  chans : list bool;
  ext : S;
  trace : list Event
}.

Definition with_rw (f : http.ResponseWriter -> http.ResponseWriter) (σ : World) : World :=
  {| rw := f (rw σ); body := body σ; chans := chans σ; ext := ext σ; trace := trace σ |}.
Definition with_body (b : Body) (σ : World) : World :=
  {| rw := rw σ; body := b; chans := chans σ; ext := ext σ; trace := trace σ |}.
Definition with_chans (cs : list bool) (σ : World) : World :=
  {| rw := rw σ; body := body σ; chans := cs; ext := ext σ; trace := trace σ |}.
Definition with_ext (s : S) (σ : World) : World :=
  {| rw := rw σ; body := body σ; chans := chans σ; ext := s; trace := trace σ |}.
Definition record (e : Event) (σ : World) : World :=
  {| rw := rw σ; body := body σ; chans := chans σ; ext := ext σ;
     trace := trace σ ++ [e] |}.

Definition start (b : Body) (s : S) : World :=
  {| rw := http.newResponseWriter; body := b; chans := []; ext := s; trace := [] |}.

(** One call either returns, leaves the goroutine waiting, or panics. *)
Inductive Step (X : Type) : Type :=
| Next (x : X) (σ : World)
| Wait
| Panic (msg : string).
Arguments Wait {X}.
Arguments Panic {X} msg.

Definition is_closed (cs : list bool) (c : chan) : bool :=
  match c with
  | nil_chan => false
  | chan_at a => match cs !! a with Some true => true | _ => false end
  end.

Definition is_open (cs : list bool) (c : chan) : bool :=
  match c with
  | nil_chan => false
  | chan_at a => match cs !! a with Some false => true | _ => false end
  end.

Definition step {X : Type} (c : Call X) (σ : World) : Step X :=
  match c in Call X return Step X with
  | WHeaderSet key value => Next tt (with_rw (http.HeaderSet key value) σ)
  | WWriteHeader code => Next tt (with_rw (http.WriteHeader code) σ)
  | WWrite s => Next tt (with_rw (http.Write s) σ)
  | WFlush => Next tt (with_rw http.Flush σ)
  | CheckVersion from server minCluster =>
      Next (checkVersionCompability from server minCluster) σ
  | ReadAllLimited n =>
      let '(res, rest) := readAllLimited (body σ) n in Next res (with_body rest σ)
  | Unmarshal b => Next (Message_Unmarshal b) σ
  | Decode =>
      let '(res, rest) := messageDecoder_decode (body σ) in Next res (with_body rest σ)
  | Plog _ _ _ => Next tt σ
  | RaftProcess m =>
      let '(err, s) := Process m (ext σ) in Next err (with_ext s σ)
  | RaftIsIDRemoved id =>
      let '(b, s) := IsIDRemoved id (ext σ) in Next b (with_ext s σ)
  | SnapSaveFrom index =>
      let '(err, s) := SaveFrom (body σ) index (ext σ) in Next err (with_ext s σ)
  | PeerGet id =>
      let '(p, s) := Get id (ext σ) in Next p (with_ext s σ)
  | PeerAttach p conn => Next tt (with_ext (attachOutgoingConn p conn (ext σ)) σ)
  | ErrWriteTo v =>
      match WriteTo v with
      | Some render => Next tt (with_rw render σ)
      | None => Next tt σ
      end
  (* make(chan struct{}): a fresh, open, unbuffered channel *)
  | ChanMake => Next (chan_at (length (chans σ))) (with_chans (chans σ ++ [false]) σ)
  (* close(c): panics on a nil and on a closed channel *)
  | ChanClose c =>
      match c with
      | nil_chan => Panic "close of nil channel"
      | chan_at a =>
          if is_open (chans σ) c then Next tt (with_chans (<[a := true]> (chans σ)) σ)
          else if is_closed (chans σ) c then Panic "close of closed channel"
          else Panic "close of nil channel"
      end
  (* <-c, on a channel nobody sends on: returns at once when c is closed,
     and waits otherwise *)
  | ChanRecv c => if is_closed (chans σ) c then Next tt σ else Wait
  end.

(** How a run ends: the code returned, or stopped at a receive that
    cannot proceed yet (with what remains to be run), or panicked. *)
Inductive Outcome (A : Type) : Type :=
| Finished (a : A)
| Blocked (rest : Prog A)
| Panicked (msg : string).
Arguments Panicked {A} msg.

Fixpoint run {A : Type} (p : Prog A) (σ : World) : Outcome A * World :=
  match p with
  | Ret a => (Finished a, σ)
  | Vis c k =>
      match step c σ with
      | Next x σ' => run (k x) (record (Ev c x) σ')
      | Wait => (Blocked p, σ)
      | Panic msg => (Panicked msg, σ)
      end
  end.

(** Where a run leaves the world. *)
Definition after {A : Type} (p : Prog A) (σ : World) : World := snd (run p σ).

End Semantics.

Arguments World {pkg} S.
Arguments Wait {pkg S X}.
Arguments Panic {pkg S X} msg.
Arguments Panicked {pkg A} msg.
Arguments Finished {pkg A} a.
Arguments Blocked {pkg A} rest.

(** ** Vocabulary for the statements *)

(** The three implementations of [http.Handler] in http.go. *)
Inductive Handler : Type :=
| MessageHandler (h : handler)
| SnapshotHandler (h : snapshotHandler)
| StreamHandler (h : streamHandler).

Definition ServeHTTP `{Pkg} (H : Handler) (r : http.Request) : Prog unit :=
  match H with
  | MessageHandler h => handler_ServeHTTP h r
  | SnapshotHandler h => snapshotHandler_ServeHTTP h r
  | StreamHandler h => streamHandler_ServeHTTP h r
  end.

Definition cid_of (H : Handler) : ID :=
  match H with
  | MessageHandler h => handler_cid h
  | SnapshotHandler h => snapshotHandler_cid h
  | StreamHandler h => streamHandler_cid h
  end.

(** The method each handler lets through its first test. *)
Definition method_of (H : Handler) : string :=
  match H with
  | MessageHandler _ | SnapshotHandler _ => "POST"
  | StreamHandler _ => "GET"
  end.

Section Vocabulary.
Context `{pkg : Pkg}.

(** The two tests of [checkClusterCompatibilityFromHeader], as
    conditions on the request header. *)
Definition version_error (header : Header) : option error :=
  checkVersionCompability (http.Get header "X-Server-From")
                          (serverVersion header) (minClusterVersion header).

Definition cluster_matches (header : Header) (cid : ID) : Prop :=
  http.Get header "X-Etcd-Cluster-ID" = ID_String cid.

Definition passes (header : Header) (cid : ID) : Prop :=
  version_error header = None /\ cluster_matches header cid.

(** Kinds of events. *)
Definition is_CheckVersion (e : Event) : bool :=
  match e with Ev c _ => match c with CheckVersion _ _ _ => true | _ => false end end.
Definition is_ReadAll (e : Event) : bool :=
  match e with Ev c _ => match c with ReadAllLimited _ => true | _ => false end end.
Definition is_Unmarshal (e : Event) : bool :=
  match e with Ev c _ => match c with Unmarshal _ => true | _ => false end end.
Definition is_Decode (e : Event) : bool :=
  match e with Ev c _ => match c with Decode => true | _ => false end end.
Definition is_SaveFrom (e : Event) : bool :=
  match e with Ev c _ => match c with SnapSaveFrom _ => true | _ => false end end.
Definition is_Process (e : Event) : bool :=
  match e with Ev c _ => match c with RaftProcess _ => true | _ => false end end.
Definition is_IsIDRemoved (e : Event) : bool :=
  match e with Ev c _ => match c with RaftIsIDRemoved _ => true | _ => false end end.
Definition is_Get (e : Event) : bool :=
  match e with Ev c _ => match c with PeerGet _ => true | _ => false end end.
Definition is_attach (e : Event) : bool :=
  match e with Ev c _ => match c with PeerAttach _ _ => true | _ => false end end.

(** Anything that takes bytes off the request body. *)
Definition is_payload_read (e : Event) : bool :=
  is_ReadAll e || is_Decode e || is_SaveFrom e.

(** Anything that uses the payload: reading it and decoding it. *)
Definition touches_payload (e : Event) : bool :=
  is_payload_read e || is_Unmarshal e.


(** Events by their answer. *)
Definition answered_nil {X : Type} (c : Call X) : X -> bool :=
  match c in Call X return X -> bool with
  | CheckVersion _ _ _ => fun r => match r with None => true | Some _ => false end
  | SnapSaveFrom _ => fun r => match r with None => true | Some _ => false end
  | RaftProcess _ => fun r => match r with None => true | Some _ => false end
  | ReadAllLimited _ => fun r => match r with Ok _ => true | Err _ => false end
  | Unmarshal _ => fun r => match r with Ok _ => true | Err _ => false end
  | Decode => fun r => match r with Ok _ => true | Err _ => false end
  | _ => fun _ => true
  end.

(** The call returned without an error. *)
Definition succeeded (e : Event) : bool :=
  match e with Ev c x => answered_nil c x end.

Definition check_passed (e : Event) : bool := is_CheckVersion e && succeeded e.
Definition save_ok (e : Event) : bool := is_SaveFrom e && succeeded e.


(** The engine was asked about an id and said it was removed. *)
Definition reported_removed (e : Event) : bool :=
  match e with
  | Ev c x =>
      match c in Call X return X -> bool with
      | RaftIsIDRemoved _ => fun b => b
      | _ => fun _ => false
      end x
  end.

(** The stream type of an attached connection. *)
Definition attached_type (e : Event) : option streamType :=
  match e with
  | Ev c _ =>
      match c with
      | PeerAttach _ conn => Some (outgoingConn.t conn)
      | _ => None
      end
  end.

Definition chan_eqb (c d : chan) : bool :=
  match c, d with
  | nil_chan, nil_chan => true
  | chan_at a, chan_at b => Nat.eqb a b
  | _, _ => false
  end.

(** The event is a [close] of channel [c]. *)
Definition closes (c : chan) (e : Event) : bool :=
  match e with
  | Ev call _ => match call with ChanClose d => chan_eqb c d | _ => false end
  end.

(** [preceded g q seen tr]: each [q]-event of [tr] has a [g]-event
    strictly before it ([seen] says one came before [tr]). *)
Fixpoint preceded (g q : Event -> bool) (seen : bool) (tr : list Event) : bool :=
  match tr with
  | [] => true
  | e :: tr' => (negb (q e) || seen) && preceded g q (seen || g e) tr'
  end.

(** [k] receives in a row from the notifier's channel. *)
Fixpoint waits (n : closeNotifier) (k : nat) : Prog unit :=
  match k with
  | O => Ret tt
  | Datatypes.S k' => call (ChanRecv (closeNotify n)) ;; waits n k'
  end.


(** The forms of path named by the spec's table: [prefix/<id>] with an
    [<id>] free of slashes. *)
Definition of_form (prefix p : string) : Prop :=
  exists id : string, path.has_slash id = false /\ p = prefix ++ "/" ++ id.

End Vocabulary.

Section Interleaving.
Context `{pkg : Pkg} {S : Type}.
Context {raft : Raft S} {snapSaver : SnapshotSaver S} {peers : peerGetter S}.

(** [reach allowed σ σ']: the world moves from [σ] to [σ'] by calls
    (of any goroutines, in any order) that each return and satisfy
    [allowed]. *)
Inductive reach (allowed : Event -> bool) : World S -> World S -> Prop :=
| reach_here σ : reach allowed σ σ
| reach_call σ σ1 σ2 X (c : Call X) (x : X) :
    reach allowed σ σ1 ->
    step c σ1 = Next x σ2 ->
    allowed (Ev c x) = true ->
    reach allowed σ (record (Ev c x) σ2).

End Interleaving.

(** ** A small cluster to run the handlers on

    Ids are single decimal digits, a message is three bytes (type,
    sender, snapshot index), the engine knows which ids were removed,
    the peer directory which ids are members. *)

Module Demo.

Record Msg := { ty : Z; from : N; index : N }.

Definition parse (t f i : Byte.byte) : Msg :=
  {| ty := Z.of_N (Byte.to_N t); from := Byte.to_N f; index := Byte.to_N i |}.

Definition pkg : Pkg := {|
  Version := string;
  serverVersion h := http.Get h "X-Server-Version";
  minClusterVersion h := http.Get h "X-Min-Cluster-Version";
  checkVersionCompability from server minCluster :=
    if String.eqb server "0.1.0"
    then Some (errors.New "remote version is too low")
    else None;
  version_Version := "2.2.0";
  IDFromString s :=
    match s with
    | String c EmptyString =>
        if (Ascii.leb "0" c && Ascii.leb c "9")%bool
        then Ok (N_of_ascii c - 48)%N
        else Err (errors.New "invalid syntax")
    | _ => Err (errors.New "invalid syntax")
    end;
  ID_String id := String (ascii_of_N (48 + id)) EmptyString;
  errReadLimit := errors.New "read limit exceeded";
  Message := Msg;
  Message_Type := ty;
  Message_From := from;
  Message_Snapshot_Metadata_Index := index;
  MsgSnap := 7;
  Message_Unmarshal b :=
    match b with
    | [t; f; i] => Ok (parse t f i)
    | _ => Err (errors.New "unexpected EOF")
    end;
  messageDecoder_decode b :=
    match data b with
    | t :: f :: i :: rest => (Ok (parse t f i), {| data := rest; fault := fault b |})
    | _ => (Err (errors.New "unexpected EOF"), b)
    end;
  Peer := N
|}.

Record State := {
  removed : list N;
  members : list N;
  disk_full : bool;
  attached : list (N * streamType)
}.

(** An engine error that writes its own response, a 403. *)
Definition forbidden (w : http.ResponseWriter) : http.ResponseWriter :=
  http.Write "cannot process message from removed member"
    (http.WriteHeader 403 (http.HeaderSet "Content-Type" "application/json" w)).

Definition errMemberRemoved : error :=
  {| Error := "the member has been permanently removed from the cluster";
     WriteTo := Some forbidden |}.

(** The engine rejects messages of type 98 with that error, fails on
    messages of type 99 and accepts the others. *)
Definition Process_ : @Message pkg -> State -> option error * State :=
  fun (m : Msg) (s : State) =>
    if (ty m =? 98)%Z then (Some errMemberRemoved, s)
    else if (ty m =? 99)%Z then (Some (errors.New "raft: stopped"), s)
    else (None, s).

Definition IsIDRemoved_ (id : uint64) (s : State) : bool * State :=
  (existsb (N.eqb id) (removed s), s).

Definition raft : @Raft pkg State := @Build_Raft pkg State Process_ IsIDRemoved_.

Definition snapSaver : SnapshotSaver State :=
  Build_SnapshotSaver
    (fun (b : Body) (index : uint64) (s : State) =>
       if disk_full s then (Some (errors.New "no space left on device"), s)
       else (None, s)).

Definition Get_ : ID -> State -> option (@Peer pkg) * State :=
  fun (id : N) (s : State) =>
    (if existsb (N.eqb id) (members s) then Some id else None, s).

Definition attachOutgoingConn_ : @Peer pkg -> outgoingConn.type -> State -> State :=
  fun (p : N) (conn : outgoingConn.type) (s : State) =>
    {| removed := removed s; members := members s; disk_full := disk_full s;
       attached := (p, outgoingConn.t conn) :: attached s |}.

Definition peers : @peerGetter pkg State :=
  @Build_peerGetter pkg State Get_ attachOutgoingConn_.

(** Member 1 serves cluster 1; 7 was removed, 2 and 3 are members. *)
Definition cluster : State :=
  {| removed := [7%N]; members := [2%N; 3%N]; disk_full := false; attached := [] |}.

Definition full_disk : State :=
  {| removed := [7%N]; members := [2%N; 3%N]; disk_full := true; attached := [] |}.

Definition message_handler : handler := {| handler_cid := 1%N |}.
Definition snapshot_handler : snapshotHandler := {| snapshotHandler_cid := 1%N |}.
Definition stream_handler : streamHandler :=
  {| streamHandler_id := 1%N; streamHandler_cid := 1%N |}.

Definition headers (kvs : list (string * string)) : Header :=
  fold_right (fun kv h => http.Set_ h (fst kv) (snd kv)) ∅ kvs.

Definition request (method url : string) (kvs : list (string * string)) : http.Request :=
  {| http.Method := method; http.URL_Path := url; http.Header_ := headers kvs |}.

Definition bytes (b : list Byte.byte) : Body := {| data := b; fault := None |}.


Definition serve (H : Handler) (r : http.Request) (b : Body) (s : State)
  : Outcome unit * World State :=
  @run pkg State raft snapSaver peers unit (@ServeHTTP pkg H r) (start b s).

End Demo.

(** ** The constructors, and more vocabulary *)

(** [NewHandler], [newSnapshotHandler] and [newStreamHandler] wrap their
    arguments into the struct and return it as an [http.Handler]; the
    collaborators they are given are those of the world. *)
Definition NewHandler (cid : ID) : Handler :=
  MessageHandler {| handler_cid := cid |}.

Definition newSnapshotHandler (cid : ID) : Handler :=
  SnapshotHandler {| snapshotHandler_cid := cid |}.

Definition newStreamHandler (id cid : ID) : Handler :=
  StreamHandler {| streamHandler_id := id; streamHandler_cid := cid |}.

Section MoreVocabulary.
Context `{pkg : Pkg}.

(** A call on one of the three collaborators. *)
Definition is_collaborator (e : Event) : bool :=
  is_Process e || is_IsIDRemoved e || is_SaveFrom e || is_Get e || is_attach e.

Definition is_Flush (e : Event) : bool :=
  match e with Ev c _ => match c with WFlush => true | _ => false end end.
Definition is_WriteTo (e : Event) : bool :=
  match e with Ev c _ => match c with ErrWriteTo _ => true | _ => false end end.
Definition is_Plog (e : Event) : bool :=
  match e with Ev c _ => match c with Plog _ _ _ => true | _ => false end end.
Definition is_ChanMake (e : Event) : bool :=
  match e with Ev c _ => match c with ChanMake => true | _ => false end end.

(** The engine was asked about an id and said it was not removed. *)
Definition said_present (e : Event) : bool :=
  is_IsIDRemoved e && negb (reported_removed e).

(** The engine was asked about this very id. *)
Definition asked_about (id : uint64) (e : Event) : bool :=
  match e with
  | Ev c _ => match c with RaftIsIDRemoved id' => N.eqb id id' | _ => false end
  end.

(** The peer directory was asked and returned a peer. *)
Definition found_peer (e : Event) : bool :=
  match e with
  | Ev c x =>
      match c in Call X return X -> bool with
      | PeerGet _ => fun p => match p with Some _ => true | None => false end
      | _ => fun _ => false
      end x
  end.

(** The connection handed over by an attach. *)
Definition attached_conn (e : Event) : option outgoingConn.type :=
  match e with
  | Ev c _ => match c with PeerAttach _ conn => Some conn | _ => None end
  end.

(** How many events of a kind a trace holds. *)
Definition calls (kind : Event -> bool) (tr : list Event) : nat :=
  length (List.filter kind tr).

(** The statuses the handlers write themselves. *)
Definition push_statuses : list Z :=
  [http.StatusNoContent; http.StatusBadRequest; http.StatusMethodNotAllowed;
   http.StatusPreconditionFailed; http.StatusInternalServerError].

Definition stream_statuses : list Z :=
  [http.StatusOK; http.StatusNotFound; http.StatusMethodNotAllowed;
   http.StatusGone; http.StatusPreconditionFailed].

Definition statuses_of (H : Handler) : list Z :=
  match H with
  | StreamHandler _ => stream_statuses
  | _ => push_statuses
  end.

(** The writer as a handler leaves it for the code that comes after the
    compatibility check: fresh but for the headers set on entry. *)
Definition entered (H : Handler) : http.ResponseWriter :=
  match H with
  | StreamHandler h =>
      http.HeaderSet "X-Etcd-Cluster-ID" (ID_String (streamHandler_cid h))
        (http.HeaderSet "X-Server-Version" version_Version http.newResponseWriter)
  | _ =>
      http.HeaderSet "X-Etcd-Cluster-ID" (ID_String (cid_of H)) http.newResponseWriter
  end.

End MoreVocabulary.

(** * Properties *)

(** ** The standard-library functions on the transport's own values *)

Example prefixes :
  (RaftStreamPrefix, RaftSnapshotPrefix, ProbingPrefix)
  = ("/raft/stream", "/raft/snapshot", "/raft/probing").
Proof. reflexivity. Qed.

Example Dir_legacy : path.Dir "/raft/stream/7" = "/raft/stream".
Proof. reflexivity. Qed.

Example Dir_typed : path.Dir "/raft/stream/msgapp/7" = "/raft/stream/msgapp".
Proof. reflexivity. Qed.

Example Dir_double_slash : path.Dir "/raft/stream//7" = "/raft/stream".
Proof. reflexivity. Qed.

Example Dir_root : path.Dir "/" = "/".
Proof. reflexivity. Qed.

Example Dir_relative : path.Dir "abc" = ".".
Proof. reflexivity. Qed.

Example Base_id : path.Base "/raft/stream/msgapp/7" = "7".
Proof. reflexivity. Qed.

Example Base_trailing_slash : path.Base "/raft/stream/msgapp/" = "msgapp".
Proof. reflexivity. Qed.

Example Base_slashes : path.Base "///" = "/".
Proof. reflexivity. Qed.

Example Clean_rooted : path.Clean "/../a//b/./c/.." = "/a/b".
Proof. reflexivity. Qed.

Example Clean_relative : path.Clean "../a/../.." = "../..".
Proof. reflexivity. Qed.

Example canonical_key :
  http.CanonicalMIMEHeaderKey "x-etcd-cluster-ID" = "X-Etcd-Cluster-Id".
Proof. reflexivity. Qed.

(** ** Headers *)

Lemma Get_Set_same (h : Header) (k v : string) : http.Get (http.Set_ h k v) k = v.
Proof. unfold http.Get, http.Set_. by rewrite lookup_insert_eq. Qed.

Lemma Get_Set_other (h : Header) (k k' v : string) :
  http.CanonicalMIMEHeaderKey k <> http.CanonicalMIMEHeaderKey k' ->
  http.Get (http.Set_ h k v) k' = http.Get h k'.
Proof. intros Hne. unfold http.Get, http.Set_. by rewrite lookup_insert_ne. Qed.

Lemma Get_empty (k : string) : http.Get ∅ k = EmptyString.
Proof. unfold http.Get. by rewrite lookup_empty. Qed.

Ltac header_lookup :=
  repeat first
    [ rewrite Get_Set_same
    | rewrite Get_Set_other by (vm_compute; discriminate)
    | rewrite Get_empty ].

(** ** Symbolic execution

    [exec] unfolds a run up to the next value the code branches on and
    splits on that value, until the run has ended on every branch. *)

Ltac exec_step :=
  match goal with
  | |- context [run (bind (match ?x with _ => _ end) _) _] => destruct x eqn:?
  | |- context [run (bind (if ?x then _ else _) _) _] => destruct x eqn:?
  | |- context [run (match ?x with _ => _ end) _] => destruct x eqn:?
  | |- context [run (if ?x then _ else _) _] => destruct x eqn:?
  | |- context [let '(_, _) := ?x in _] => destruct x eqn:?
  | |- context [match WriteTo ?v with _ => _ end] => destruct (WriteTo v) eqn:?
  end.

Ltac exec := unfold after; cbn; repeat (exec_step; cbn); subst.

Ltac enter H Hm :=
  destruct H as [?h|?h|?h]; cbn [cid_of method_of ServeHTTP] in *;
  [ unfold handler_ServeHTTP | unfold snapshotHandler_ServeHTTP
  | unfold streamHandler_ServeHTTP ];
  rewrite ?Hm.

Section Properties.
Context `{pkg : Pkg} {S : Type}.
Context {raft : Raft S} {snapSaver : SnapshotSaver S} {peers : peerGetter S}.

(** The compatibility check returns; its answer is decided by the
    version test first and the cluster identity second. *)
Lemma run_checkClusterCompatibilityFromHeader (header : Header) (cid : ID) (σ : World S) :
  fst (run (checkClusterCompatibilityFromHeader header cid) σ)
  = Finished
      match version_error header with
      | Some _ => Some errIncompatibleVersion
      | None =>
          if String.eqb (http.Get header "X-Etcd-Cluster-ID") (ID_String cid)
          then None else Some errClusterIDMismatch
      end.
Proof.
  unfold checkClusterCompatibilityFromHeader, version_error. cbn.
  destruct (checkVersionCompability _ _ _); cbn; [reflexivity|].
  destruct (String.eqb _ _); reflexivity.
Qed.

Lemma passes_dec (header : Header) (cid : ID) :
  passes header cid <->
  version_error header = None /\
  String.eqb (http.Get header "X-Etcd-Cluster-ID") (ID_String cid) = true.
Proof. unfold passes, cluster_matches. by rewrite String.eqb_eq. Qed.

(** C1 (as amended): a request made with the handler's own method whose
    X-Etcd-Cluster-ID header differs from the handler's cluster identity
    is answered 412 by each of the three handlers, whatever its path,
    body and other headers. *)
Theorem cluster_mismatch_answered_412
    (H : Handler) (r : http.Request) (b : Body) (s : S) :
  http.Method r = method_of H ->
  ~ cluster_matches (http.Header_ r) (cid_of H) ->
  http.status (rw (after (ServeHTTP H r) (start b s)))
  = http.StatusPreconditionFailed.
Proof.
  intros Hm Hc. unfold cluster_matches in Hc. apply String.eqb_neq in Hc.
  enter H Hm; unfold after; cbn;
    (destruct (checkVersionCompability _ _ _); cbn; [reflexivity|]);
    rewrite Hc; reflexivity.
Qed.



(** C9: when the version check fails on a request's headers and the
    cluster identity differs as well, the compatibility check makes
    the version test first, logs and returns errIncompatibleVersion
    without reporting the cluster mismatch, and the 412 response of
    each handler reads "incompatible version". *)
Theorem version_error_reported_first
    (H : Handler) (r : http.Request) (b : Body) (s : S) (e : error) :
  version_error (http.Header_ r) = Some e ->
  ~ cluster_matches (http.Header_ r) (cid_of H) ->
  (forall σ : World S,
     run (checkClusterCompatibilityFromHeader (http.Header_ r) (cid_of H)) σ
     = (Finished (Some errIncompatibleVersion),
        record (Ev (Plog Errorf "request version incompatibility (%v)" [ArgError e]) tt)
          (record (Ev (CheckVersion (http.Get (http.Header_ r) "X-Server-From")
                                    (serverVersion (http.Header_ r))
                                    (minClusterVersion (http.Header_ r)))
                      (Some e)) σ))) /\
  let w := rw (after (ServeHTTP H r) (start b s)) in
  (http.Method r = method_of H -> http.status w = http.StatusPreconditionFailed) /\
  (http.status w = http.StatusPreconditionFailed ->
   http.written w = "incompatible version" ++ newline).
Proof.
  intros Hv _. unfold version_error in Hv. split.
  - intros σ. unfold checkClusterCompatibilityFromHeader. cbn. rewrite Hv. reflexivity.
  - cbn zeta. split.
    + intros Hm. enter H Hm; unfold after; cbn; rewrite Hv; reflexivity.
    + destruct H as [h|h|h]; cbn;
        [ unfold handler_ServeHTTP | unfold snapshotHandler_ServeHTTP
        | unfold streamHandler_ServeHTTP ];
        (destruct (negb _); unfold after; cbn; [discriminate|]);
        rewrite Hv; reflexivity.
Qed.

End Properties.

Section Order.
Context `{pkg : Pkg}.

(** What [preceded] computes: every [q]-event has a [g]-event before it. *)
Lemma preceded_spec (g q : Event -> bool) (seen : bool) (tr : list Event) :
  preceded g q seen tr = true <->
  forall tr1 e tr2, tr = (tr1 ++ e :: tr2)%list -> q e = true ->
    seen || existsb g tr1 = true.
Proof.
  revert seen. induction tr as [|a tr IH]; intros seen; cbn.
  - split; [|reflexivity]. intros _ [|? ?] ? ? Heq; discriminate Heq.
  - rewrite andb_true_iff, IH. split.
    + intros [Ha Htr] tr1 e tr2 Heq Hq. destruct tr1 as [|a' tr1]; cbn in Heq.
      * injection Heq as -> ->. rewrite Hq in Ha. cbn in *.
        by rewrite Ha.
      * injection Heq as -> ->. specialize (Htr _ _ _ eq_refl Hq).
        cbn. by rewrite orb_assoc.
    + intros Hall. split.
      * destruct (q a) eqn:Hq; [|reflexivity]. cbn.
        specialize (Hall [] a tr eq_refl Hq). cbn in Hall.
        by rewrite orb_false_r in Hall.
      * intros tr1 e tr2 -> Hq. rewrite <- orb_assoc.
        apply (Hall (a :: tr1) e tr2 eq_refl Hq).
Qed.

End Order.

Section Ordering.
Context `{pkg : Pkg} {S : Type}.
Context {raft : Raft S} {snapSaver : SnapshotSaver S} {peers : peerGetter S}.


(** C6: a POST to the snapshot handler that passes the compatibility
    check and carries a snapshot message, and whose SaveFrom fails, is
    answered 500 with the storage error and never reaches Process; and
    in every run of the snapshot handler Process is called only after
    SaveFrom has returned without error. *)
Theorem save_failure_stops_dispatch
    (h : snapshotHandler) (r : http.Request) (b : Body) (s : S) :
  let σ' := after (snapshotHandler_ServeHTTP h r) (start b s) in
  (forall m rest err s',
     http.Method r = "POST" ->
     passes (http.Header_ r) (snapshotHandler_cid h) ->
     messageDecoder_decode b = (Ok m, rest) ->
     Message_Type m = MsgSnap ->
     SaveFrom rest (Message_Snapshot_Metadata_Index m) s = (Some err, s') ->
     http.status (rw σ') = http.StatusInternalServerError /\
     http.written (rw σ') = sprintf_err "failed to save KV snapshot " err ++ newline /\
     existsb is_Process (trace σ') = false) /\
  preceded save_ok is_Process false (trace σ') = true.
Proof.
  cbn zeta. split.
  - intros m rest err s' Hm Hp Hd Ht Hs.
    apply passes_dec in Hp. destruct Hp as [Hv Hc]. unfold version_error in Hv.
    unfold snapshotHandler_ServeHTTP, after. rewrite Hm. cbn.
    rewrite Hv. cbn. rewrite Hc. cbn. rewrite Hd. cbn.
    rewrite Ht, Z.eqb_refl. cbn. rewrite Hs. cbn. auto.
  - unfold snapshotHandler_ServeHTTP. exec; reflexivity.
Qed.


End Ordering.

(** ** Stream types *)

Section StreamTypes.
Context `{pkg : Pkg} {S : Type}.
Context {raft : Raft S} {snapSaver : SnapshotSaver S} {peers : peerGetter S}.

Lemma RaftStreamPrefix_value : RaftStreamPrefix = "/raft/stream".
Proof. reflexivity. Qed.

(** The three directories the switch knows. *)
Lemma streamTypeOfDir_Some (dir : string) (t : streamType) :
  streamTypeOfDir dir = Some t <->
  (dir = "/raft/stream" /\ t = streamTypeMsgApp) \/
  (dir = "/raft/stream/msgapp" /\ t = streamTypeMsgAppV2) \/
  (dir = "/raft/stream/message" /\ t = streamTypeMessage).
Proof.
  unfold streamTypeOfDir.
  change RaftStreamPrefix with "/raft/stream".
  change (path.Join _) with "/raft/stream/msgapp" at 1.
  change (path.Join _) with "/raft/stream/message".
  destruct (String.eqb_spec dir "/raft/stream") as [->|H1].
  { split; [intros [= <-]; auto|]. intros [[_ ->]|[[? _]|[? _]]]; [reflexivity|discriminate..]. }
  destruct (String.eqb_spec dir "/raft/stream/msgapp") as [->|H2].
  { split; [intros [= <-]; auto|]. intros [[? _]|[[_ ->]|[? _]]]; [discriminate|reflexivity|discriminate]. }
  destruct (String.eqb_spec dir "/raft/stream/message") as [->|H3].
  { split; [intros [= <-]; auto|]. intros [[? _]|[[? _]|[_ ->]]]; [discriminate..|reflexivity]. }
  split; [discriminate|]. intros [[? _]|[[? _]|[? _]]]; contradiction.
Qed.

(** A path [prefix/<id>] splits after the slash before [<id>]. *)
Lemma has_slash_app (prefix rest : string) :
  path.has_slash (prefix ++ String "/" rest) = true.
Proof.
  induction prefix as [|c prefix IH].
  - reflexivity.
  - change (String c prefix ++ String "/" rest)
      with (String c (prefix ++ String "/" rest)).
    cbn [path.has_slash]. rewrite IH. apply orb_true_r.
Qed.

Lemma Split_app (prefix id : string) :
  path.has_slash id = false ->
  path.Split (prefix ++ String "/" id) = (prefix ++ "/", id).
Proof.
  intros Hid. induction prefix as [|c prefix IH].
  - change (EmptyString ++ String "/" id) with (String "/" id).
    cbn [path.Split]. by rewrite Hid.
  - change (String c prefix ++ String "/" id)
      with (String c (prefix ++ String "/" id)).
    cbn [path.Split]. by rewrite has_slash_app, IH.
Qed.

Lemma Dir_of_form (prefix p : string) :
  of_form prefix p -> path.Dir p = path.Clean (prefix ++ "/").
Proof.
  intros (id & Hid & ->). unfold path.Dir.
  change (prefix ++ "/" ++ id) with (prefix ++ String "/" id).
  by rewrite Split_app.
Qed.

(** C4 (as amended): the stream type is a function of
    [path.Dir] of the URL path, the cleaned directory part: a path
    [/raft/stream/<id>] gives streamTypeMsgApp (the legacy type),
    [/raft/stream/msgapp/<id>] gives streamTypeMsgAppV2 (typed v1),
    [/raft/stream/message/<id>] gives streamTypeMessage (typed v2),
    and so does every path whose cleaned directory is one of these
    three; on a GET that passes the compatibility check, a path with
    any other cleaned directory is answered 404 "invalid path" with no
    question to the engine and no connection attached, and a
    connection that is attached has the type of the path. *)
Theorem stream_type_of_path
    (h : streamHandler) (r : http.Request) (b : Body) (s : S) :
  (forall p,
     (of_form "/raft/stream" p ->
      streamTypeOfDir (path.Dir p) = Some streamTypeMsgApp) /\
     (of_form "/raft/stream/msgapp" p ->
      streamTypeOfDir (path.Dir p) = Some streamTypeMsgAppV2) /\
     (of_form "/raft/stream/message" p ->
      streamTypeOfDir (path.Dir p) = Some streamTypeMessage)) /\
  (http.Method r = "GET" ->
   passes (http.Header_ r) (streamHandler_cid h) ->
   let σ' := after (streamHandler_ServeHTTP h r) (start b s) in
   match streamTypeOfDir (path.Dir (http.URL_Path r)) with
   | None =>
       http.status (rw σ') = http.StatusNotFound /\
       http.written (rw σ') = "invalid path" ++ newline /\
       existsb is_IsIDRemoved (trace σ') = false /\
       existsb is_attach (trace σ') = false
   | Some t =>
       forall t', In (Some t') (map attached_type (trace σ')) -> t' = t
   end).
Proof.
  split.
  - intros p. repeat split; intros Hp; rewrite (Dir_of_form Hp); reflexivity.
  - intros Hm Hp. apply passes_dec in Hp. destruct Hp as [Hv Hc].
    unfold version_error in Hv.
    unfold streamHandler_ServeHTTP, after. rewrite Hm. cbn.
    rewrite Hv. cbn. rewrite Hc. cbn.
    destruct (streamTypeOfDir _) as [t|]; [|cbn; auto].
    exec; intros t' Hin; cbn in Hin; intuition congruence.
Qed.

End StreamTypes.

(** ** The close notifier *)

(** Split a hypothesis [step c σ = Next x σ'] into the cases of the call
    and read off [σ']. *)
Ltac step_cases Hstep :=
  repeat match type of Hstep with
         | (let '(_, _) := ?p in _) = _ => destruct p
         | match ?v with _ => _ end = _ => destruct v eqn:?
         | (if ?v then _ else _) = _ => destruct v eqn:?
         end;
  try discriminate Hstep;
  inversion Hstep; subst; clear Hstep; cbn.

Section CloseNotifier.
Context `{pkg : Pkg} {S : Type}.
Context {raft : Raft S} {snapSaver : SnapshotSaver S} {peers : peerGetter S}.

Lemma chan_eqb_eq (c d : chan) : chan_eqb c d = true <-> c = d.
Proof.
  destruct c, d; cbn; try (split; [discriminate|discriminate]); try tauto.
  rewrite Nat.eqb_eq. split; [by intros ->|by intros [= ->]].
Qed.

Lemma open_not_closed (cs : list bool) (c : chan) :
  is_open cs c = true -> is_closed cs c = false.
Proof. destruct c; cbn; [done|]. by destruct (cs !! addr) as [[]|]. Qed.

(** No call reopens a closed channel. *)
Lemma step_keeps_closed {X : Type} (c : Call X) (x : X) (σ σ' : World S) (d : chan) :
  step c σ = Next x σ' ->
  is_closed (chans σ) d = true -> is_closed (chans σ') d = true.
Proof.
  intros Hstep Hd.
  destruct c; cbn in Hstep; step_cases Hstep; try exact Hd.
  - (* make *)
    destruct d as [|a]; [done|]. cbn in *.
    destruct (chans σ !! a) as [[]|] eqn:E; try discriminate.
    by rewrite (lookup_app_l_Some _ _ _ _ E).
  - (* close *)
    destruct d as [|a]; [done|]. cbn in *.
    destruct (decide (addr = a)) as [->|Hne].
    + destruct (chans σ !! a) as [[]|]; discriminate.
    + by rewrite list_lookup_insert_ne.
Qed.

(** A call other than [close(d)] leaves an open channel [d] open. *)
Lemma step_keeps_open {X : Type} (c : Call X) (x : X) (σ σ' : World S) (d : chan) :
  step c σ = Next x σ' ->
  closes d (Ev c x) = false ->
  is_open (chans σ) d = true -> is_open (chans σ') d = true.
Proof.
  intros Hstep Hc Hd.
  destruct c; cbn in Hstep; step_cases Hstep; try exact Hd.
  - destruct d as [|a]; [done|]. cbn in *.
    destruct (chans σ !! a) as [[]|] eqn:E; try discriminate.
    by rewrite (lookup_app_l_Some _ _ _ _ E).
  - destruct d as [|a]; [done|]. cbn in *.
    apply Nat.eqb_neq in Hc.
    by rewrite list_lookup_insert_ne.
Qed.

Lemma reach_keeps_closed (allowed : Event -> bool) (σ σ' : World S) (d : chan) :
  reach allowed σ σ' ->
  is_closed (chans σ) d = true -> is_closed (chans σ') d = true.
Proof.
  induction 1 as [|σ σ1 σ2 X c x _ IH Hstep _]; [done|].
  intros Hd. cbn. eapply step_keeps_closed; eauto.
Qed.

Lemma reach_keeps_open (σ σ' : World S) (d : chan) :
  reach (fun e => negb (closes d e)) σ σ' ->
  is_open (chans σ) d = true -> is_open (chans σ') d = true.
Proof.
  induction 1 as [|σ σ1 σ2 X c x _ IH Hstep Hok]; [done|].
  intros Hd. cbn. eapply step_keeps_open; eauto.
  by apply negb_true_iff in Hok.
Qed.

(** Every run is a sequence of such calls. *)
Lemma run_reach {A : Type} (p : Prog A) (σ : World S) :
  reach (fun _ => true) σ (after p σ).
Proof.
  assert (Hgen : forall σ0, reach (fun _ => true) σ0 σ ->
                            reach (fun _ => true) σ0 (after p σ)).
  { revert σ. induction p as [a|X c k IH]; intros σ σ0 Hr; unfold after; cbn.
    - exact Hr.
    - destruct (step c σ) as [x σ'| |msg] eqn:E; cbn; try exact Hr.
      apply IH. eapply reach_call; eauto. }
  apply Hgen. constructor.
Qed.

Lemma waits_closed (n : closeNotifier) (k : nat) (σ : World S) :
  is_closed (chans σ) (done n) = true ->
  fst (run (waits n k) σ) = Finished tt /\
  chans (after (waits n k) σ) = chans σ.
Proof.
  revert σ. induction k as [|k IH]; intros σ Hc; unfold after; cbn; [done|].
  unfold closeNotify. rewrite Hc.
  apply (IH (record (Ev (ChanRecv (done n)) tt) σ)). exact Hc.
Qed.

(** C8: once Close has fired a close notifier, then whatever calls are
    made afterwards, by whichever goroutines, every receive from its
    closeNotify channel returns at once: any number of receives in a
    row all return, none waits. *)
Theorem wait_after_Close_returns
    (n : closeNotifier) (σ σ1 σ2 : World S) (k : nat) :
  run (closeNotifier_Close n) σ = (Finished None, σ1) ->
  reach (fun _ => true) σ1 σ2 ->
  fst (run (waits n k) σ2) = Finished tt.
Proof.
  intros Hclose Hreach.
  apply waits_closed. eapply reach_keeps_closed; [exact Hreach|].
  unfold closeNotifier_Close in Hclose. cbn in Hclose.
  destruct (done n) as [|a]; [discriminate|].
  cbn in Hclose.
  destruct (chans σ !! a) as [[]|] eqn:E; cbn in Hclose; try discriminate.
  injection Hclose as <-. cbn.
  rewrite list_lookup_insert_eq; [done|]. by eapply lookup_lt_Some.
Qed.

(** C10: a close notifier made by newCloseNotifier on which Close has
    not been called yet accepts Close: the call returns nil, without a
    panic; and from then on, whatever else happens, every further Close
    on it panics with "close of closed channel". *)
Theorem Close_once_then_panic
    (n : closeNotifier) (σ0 σ1 σ2 : World S) :
  run newCloseNotifier σ0 = (Finished n, σ1) ->
  reach (fun e => negb (closes (done n) e)) σ1 σ2 ->
  exists σ3,
    run (closeNotifier_Close n) σ2 = (Finished None, σ3) /\
    forall σ4, reach (fun _ => true) σ3 σ4 ->
      fst (run (closeNotifier_Close n) σ4) = Panicked "close of closed channel".
Proof.
  intros Hnew Hreach.
  unfold newCloseNotifier in Hnew. cbn in Hnew. injection Hnew as <- <-.
  cbn in Hreach.
  set (a := length (chans σ0)) in *.
  assert (Hopen : is_open (chans σ2) (chan_at a) = true).
  { eapply reach_keeps_open; [exact Hreach|]. cbn.
    rewrite lookup_app_r by done. by rewrite Nat.sub_diag. }
  exists (record (Ev (ChanClose (chan_at a)) tt)
                 (with_chans (<[a := true]> (chans σ2)) σ2)).
  split.
  - unfold closeNotifier_Close. cbn -[is_open is_closed]. by rewrite Hopen.
  - intros σ4 Hr4.
    assert (Hclosed : is_closed (chans σ4) (chan_at a) = true).
    { eapply reach_keeps_closed; [exact Hr4|]. cbn.
      cbn in Hopen. destruct (chans σ2 !! a) as [[]|] eqn:E; try discriminate.
      rewrite list_lookup_insert_eq; [done|]. by eapply lookup_lt_Some. }
    unfold closeNotifier_Close. cbn -[is_open is_closed].
    rewrite Hclosed.
    destruct (is_open (chans σ4) (chan_at a)) eqn:E; [|reflexivity].
    apply open_not_closed in E. congruence.
Qed.

End CloseNotifier.

(** * Further properties of http.go *)

Section Gate.
Context `{pkg : Pkg} {S : Type}.
Context {raft : Raft S} {snapSaver : SnapshotSaver S} {peers : peerGetter S}.

(** X1: checkClusterCompatibilityFromHeader returns, with nil exactly
    when the version test and the cluster identity both pass, with
    errIncompatibleVersion exactly when the version test fails, and with
    errClusterIDMismatch exactly when the version test passes and the
    identity differs; it asks the version test once and leaves the
    response writer, the request body, the channels and the
    collaborators as they were. *)
Theorem compatibility_check_verdict (header : Header) (cid : ID) (σ : World S) :
  let o := fst (run (checkClusterCompatibilityFromHeader header cid) σ) in
  let σ' := after (checkClusterCompatibilityFromHeader header cid) σ in
  (o = Finished None <-> passes header cid) /\
  (o = Finished (Some errIncompatibleVersion) <-> version_error header <> None) /\
  (o = Finished (Some errClusterIDMismatch) <->
   version_error header = None /\ ~ cluster_matches header cid) /\
  (rw σ' = rw σ /\ body σ' = body σ /\ chans σ' = chans σ /\ ext σ' = ext σ) /\
  (exists l, trace σ' = (trace σ ++ l)%list /\ calls is_CheckVersion l = 1%nat).
Proof.
  cbn zeta. rewrite passes_dec. unfold cluster_matches, version_error, after.
  unfold checkClusterCompatibilityFromHeader. cbn.
  destruct (checkVersionCompability _ _ _) as [e|] eqn:Ev; cbn.
  - split; [split; [discriminate | intros [? _]; discriminate]|].
    split; [split; [discriminate | reflexivity]|].
    split; [split; [discriminate | intros [? _]; discriminate]|].
    split; [auto|]. rewrite <- app_assoc. eexists; split; reflexivity.
  - destruct (String.eqb_spec (http.Get header "X-Etcd-Cluster-ID") (ID_String cid))
      as [Heq|Hne]; cbn.
    + split; [split; auto|].
      split; [split; [discriminate | congruence]|].
      split; [split; [discriminate | intros [_ ?]; contradiction]|].
      split; [auto|]. eexists; split; reflexivity.
    + split; [split; [discriminate | intros [_ ?]; discriminate]|].
      split; [split; [discriminate | congruence]|].
      split; [split; auto|].
      split; [auto|]. rewrite <- app_assoc. eexists; split; reflexivity.
Qed.

(** X2: a request that fails the method test or the compatibility check
    is turned away before anything else happens: no byte of the body is
    read or decoded, no collaborator is called, and the body and the
    collaborators' state are as the request found them. *)
Theorem rejected_request_touches_nothing
    (H : Handler) (r : http.Request) (b : Body) (s : S) :
  http.Method r <> method_of H \/ ~ passes (http.Header_ r) (cid_of H) ->
  let σ' := after (ServeHTTP H r) (start b s) in
  existsb touches_payload (trace σ') = false /\
  existsb is_collaborator (trace σ') = false /\
  body σ' = b /\ ext σ' = s /\
  fst (run (ServeHTTP H r) (start b s)) = Finished tt.
Proof.
  intros Hrej. cbn zeta. unfold after.
  destruct (String.eqb_spec (http.Method r) (method_of H)) as [Hm|Hm].
  - destruct Hrej as [?|Hp]; [contradiction|].
    rewrite passes_dec in Hp. unfold version_error in Hp.
    enter H Hm; cbn;
      (destruct (checkVersionCompability _ _ _); cbn; [auto 6|]);
      (destruct (String.eqb _ _); cbn; [exfalso; auto | auto 6]).
  - apply String.eqb_neq in Hm.
    destruct H as [h|h|h]; cbn in Hm |- *;
      [ unfold handler_ServeHTTP | unfold snapshotHandler_ServeHTTP
      | unfold streamHandler_ServeHTTP ];
      rewrite Hm; cbn; auto 6.
Qed.

(** X3: a request made with the handler's own method whose versions are
    acceptable but whose X-Etcd-Cluster-ID differs from the handler's
    cluster identity is answered 412 with the text "cluster ID mismatch",
    by each of the three handlers. *)
Theorem cluster_mismatch_text
    (H : Handler) (r : http.Request) (b : Body) (s : S) :
  http.Method r = method_of H ->
  version_error (http.Header_ r) = None ->
  ~ cluster_matches (http.Header_ r) (cid_of H) ->
  let w := rw (after (ServeHTTP H r) (start b s)) in
  http.status w = http.StatusPreconditionFailed /\
  http.written w = "cluster ID mismatch" ++ newline /\
  http.Get (http.responseHeader w) "Content-Type" = "text/plain; charset=utf-8".
Proof.
  intros Hm Hv Hc. unfold cluster_matches in Hc. apply String.eqb_neq in Hc.
  unfold version_error in Hv.
  enter H Hm; unfold after; cbn -[http.Get http.Set_]; rewrite Hv;
    cbn -[http.Get http.Set_]; rewrite Hc; cbn -[http.Get http.Set_];
    unfold http.HeaderSet; cbn -[http.Get http.Set_];
    header_lookup; auto.
Qed.


(** X5: whenever no engine error has rendered the response itself, the
    status line has been written by the handler, and the status is one of
    204, 400, 405, 412, 500 for the message and the snapshot handler and
    one of 200, 404, 405, 410, 412 for the stream handler. *)
Theorem statuses_written
    (H : Handler) (r : http.Request) (b : Body) (s : S) :
  let σ' := after (ServeHTTP H r) (start b s) in
  existsb is_WriteTo (trace σ') = false ->
  http.sent (rw σ') <> None /\ In (http.status (rw σ')) (statuses_of H).
Proof.
  cbn zeta.
  destruct H as [h|h|h]; cbn [ServeHTTP statuses_of];
    [ unfold handler_ServeHTTP | unfold snapshotHandler_ServeHTTP
    | unfold streamHandler_ServeHTTP ];
    exec; intros Hw; try discriminate Hw; (split; [discriminate|]);
    unfold push_statuses, stream_statuses; cbn; tauto.
Qed.

(** X6: in every run of every handler each collaborator call comes after
    a passed version test; in the stream handler the peer directory is
    asked only after the engine has said the sender is not removed, and
    a connection is attached only after the directory has returned a
    peer, the 200 has been flushed and the close notifier has been
    made. *)
Theorem collaborators_asked_in_order
    (H : Handler) (r : http.Request) (b : Body) (s : S) :
  let tr := trace (after (ServeHTTP H r) (start b s)) in
  preceded check_passed is_collaborator false tr = true /\
  preceded said_present is_Get false tr = true /\
  preceded found_peer is_attach false tr = true /\
  preceded is_Flush is_attach false tr = true /\
  preceded is_ChanMake is_attach false tr = true.
Proof.
  cbn zeta.
  destruct H as [h|h|h]; cbn [ServeHTTP];
    [ unfold handler_ServeHTTP | unfold snapshotHandler_ServeHTTP
    | unfold streamHandler_ServeHTTP ];
    exec; repeat split; reflexivity.
Qed.

(** X7: no request is handled twice over: a run holds at most one
    version test, one read of the whole body, one decode, and one call
    of each of Process, SaveFrom, IsIDRemoved, Get and
    attachOutgoingConn; and a handler never calls a collaborator that is
    not its own (the message handler only Process, the snapshot handler
    only SaveFrom and Process, the stream handler only IsIDRemoved, Get
    and attachOutgoingConn). *)
Theorem each_call_at_most_once
    (H : Handler) (r : http.Request) (b : Body) (s : S) :
  let tr := trace (after (ServeHTTP H r) (start b s)) in
  forallb (fun kind => Nat.leb (calls kind tr) 1)
          [is_CheckVersion; is_ReadAll; is_Unmarshal; is_Decode; is_Process;
           is_SaveFrom; is_IsIDRemoved; is_Get; is_attach] = true /\
  match H with
  | MessageHandler _ =>
      calls is_collaborator tr = calls is_Process tr /\ calls is_Decode tr = 0%nat
  | SnapshotHandler _ =>
      calls is_collaborator tr = (calls is_SaveFrom tr + calls is_Process tr)%nat /\
      calls is_ReadAll tr = 0%nat /\ calls is_Unmarshal tr = 0%nat
  | StreamHandler _ =>
      calls is_Process tr = 0%nat /\ calls is_SaveFrom tr = 0%nat /\
      calls touches_payload tr = 0%nat
  end.
Proof.
  cbn zeta.
  destruct H as [h|h|h]; cbn [ServeHTTP];
    [ unfold handler_ServeHTTP | unfold snapshotHandler_ServeHTTP
    | unfold streamHandler_ServeHTTP ];
    exec; repeat split; reflexivity.
Qed.

End Gate.

Section Push.
Context `{pkg : Pkg} {S : Type}.
Context {raft : Raft S} {snapSaver : SnapshotSaver S} {peers : peerGetter S}.

(** X8: a POST to the message handler that passes the compatibility
    check and whose body is read but cannot be unmarshalled is answered
    400 with the text "error unmarshaling raft message"; Process is not
    called and the engine is left as it was. *)
Theorem undecodable_message_rejected
    (h : handler) (r : http.Request) (b rest : Body) (s : S)
    (bs : list Byte.byte) (err : error) :
  http.Method r = "POST" ->
  passes (http.Header_ r) (handler_cid h) ->
  readAllLimited b ConnReadLimitByte = (Ok bs, rest) ->
  Message_Unmarshal bs = Err err ->
  let σ' := after (handler_ServeHTTP h r) (start b s) in
  http.status (rw σ') = http.StatusBadRequest /\
  http.written (rw σ') = "error unmarshaling raft message" ++ newline /\
  existsb is_collaborator (trace σ') = false /\
  ext σ' = s.
Proof.
  intros Hm Hp Hr Hu. apply passes_dec in Hp. destruct Hp as [Hv Hc].
  unfold version_error in Hv.
  unfold handler_ServeHTTP, after. rewrite Hm. cbn.
  rewrite Hv. cbn. rewrite Hc. cbn. rewrite Hr. cbn. rewrite Hu. cbn. auto.
Qed.

(** X9: a POST to the message handler that passes the compatibility
    check and whose body unmarshals to a message is handed to Process
    once, with that message, and the engine is left as Process leaves
    it; a nil answer gives 204 with no body, an error that is a
    writerToResponse writes the whole response itself on a writer that
    holds the cluster header and nothing else, and any other error gives
    500 with the text "error processing raft message". *)
Theorem message_dispatched
    (h : handler) (r : http.Request) (b rest : Body) (s s' : S)
    (bs : list Byte.byte) (m : Message) (res : option error) :
  http.Method r = "POST" ->
  passes (http.Header_ r) (handler_cid h) ->
  readAllLimited b ConnReadLimitByte = (Ok bs, rest) ->
  Message_Unmarshal bs = Ok m ->
  Process m s = (res, s') ->
  let σ' := after (handler_ServeHTTP h r) (start b s) in
  ext σ' = s' /\
  List.filter is_collaborator (trace σ') = [Ev (RaftProcess m) res] /\
  match res with
  | None =>
      http.sent (rw σ')
      = Some (http.StatusNoContent, http.header (entered (MessageHandler h))) /\
      http.written (rw σ') = EmptyString
  | Some err =>
      match WriteTo err with
      | Some render => rw σ' = render (entered (MessageHandler h))
      | None =>
          http.status (rw σ') = http.StatusInternalServerError /\
          http.written (rw σ') = "error processing raft message" ++ newline
      end
  end.
Proof.
  intros Hm Hp Hr Hu Hproc. apply passes_dec in Hp. destruct Hp as [Hv Hc].
  unfold version_error in Hv.
  unfold handler_ServeHTTP, after. rewrite Hm. cbn.
  rewrite Hv. cbn. rewrite Hc. cbn. rewrite Hr. cbn. rewrite Hu. cbn.
  rewrite Hproc. cbn.
  destruct res as [err|]; cbn; [|auto].
  destruct (WriteTo err) as [render|] eqn:Hw; cbn; [rewrite Hw|]; auto.
Qed.

(** X10: a POST to the snapshot handler that passes the compatibility
    check is answered 400 when the envelope cannot be decoded (with the
    decoder's error in the text) and when the decoded message is not of
    type MsgSnap (with the text "wrong raft message type"); in both cases
    neither SaveFrom nor Process is called and the store and the engine
    are left as they were. *)
Theorem bad_snapshot_envelope_rejected
    (h : snapshotHandler) (r : http.Request) (b rest : Body) (s : S)
    (res : result Message) :
  http.Method r = "POST" ->
  passes (http.Header_ r) (snapshotHandler_cid h) ->
  messageDecoder_decode b = (res, rest) ->
  match res with
  | Ok m => Message_Type m <> MsgSnap
  | Err _ => True
  end ->
  let σ' := after (snapshotHandler_ServeHTTP h r) (start b s) in
  http.status (rw σ') = http.StatusBadRequest /\
  http.written (rw σ')
  = match res with
    | Ok _ => "wrong raft message type"
    | Err err => sprintf_err "failed to decode raft message " err
    end ++ newline /\
  existsb is_collaborator (trace σ') = false /\
  ext σ' = s /\ body σ' = rest.
Proof.
  intros Hm Hp Hd Hres. apply passes_dec in Hp. destruct Hp as [Hv Hc].
  unfold version_error in Hv.
  unfold snapshotHandler_ServeHTTP, after. rewrite Hm. cbn.
  rewrite Hv. cbn. rewrite Hc. cbn. rewrite Hd. cbn.
  destruct res as [m|err]; cbn; [|auto].
  apply Z.eqb_neq in Hres. rewrite Hres. cbn. auto.
Qed.

(** X11: a POST to the snapshot handler that passes the compatibility
    check and carries a snapshot message gives SaveFrom what the decoder
    left of the body together with the index of the message's snapshot
    metadata; when the store accepts, one Info record is logged and
    Process is called once with the decoded message on the state the
    store left, and its answer decides the response as in the message
    handler (204, the error's own rendering, or 500 with the error's
    text). *)
Theorem snapshot_saved_then_dispatched
    (h : snapshotHandler) (r : http.Request) (b rest : Body) (s s1 s2 : S)
    (m : Message) (res : option error) :
  http.Method r = "POST" ->
  passes (http.Header_ r) (snapshotHandler_cid h) ->
  messageDecoder_decode b = (Ok m, rest) ->
  Message_Type m = MsgSnap ->
  SaveFrom rest (Message_Snapshot_Metadata_Index m) s = (None, s1) ->
  Process m s1 = (res, s2) ->
  let σ' := after (snapshotHandler_ServeHTTP h r) (start b s) in
  ext σ' = s2 /\
  List.filter (fun e => is_collaborator e || is_Plog e) (trace σ')
  = ([Ev (SnapSaveFrom (Message_Snapshot_Metadata_Index m)) None;
      Ev (Plog Infof "received and saved snapshot [index: %d, from: %s] successfully"
               [ArgUint64 (Message_Snapshot_Metadata_Index m); ArgID (Message_From m)]) tt;
      Ev (RaftProcess m) res]
     ++ match res with
        | Some err =>
            match WriteTo err with
            | Some _ => []
            | None =>
                [Ev (Plog Warningf (sprintf_err "failed to process raft message " err) []) tt]
            end
        | None => []
        end)%list /\
  match res with
  | None =>
      http.sent (rw σ')
      = Some (http.StatusNoContent, http.header (entered (SnapshotHandler h))) /\
      http.written (rw σ') = EmptyString
  | Some err =>
      match WriteTo err with
      | Some render => rw σ' = render (entered (SnapshotHandler h))
      | None =>
          http.status (rw σ') = http.StatusInternalServerError /\
          http.written (rw σ')
          = sprintf_err "failed to process raft message " err ++ newline
      end
  end.
Proof.
  intros Hm Hp Hd Ht Hs Hproc. apply passes_dec in Hp. destruct Hp as [Hv Hc].
  unfold version_error in Hv.
  unfold snapshotHandler_ServeHTTP, after. rewrite Hm. cbn.
  rewrite Hv. cbn. rewrite Hc. cbn. rewrite Hd. cbn.
  rewrite Ht, Z.eqb_refl. cbn. rewrite Hs. cbn. rewrite Hproc. cbn.
  destruct res as [err|]; cbn; [|auto].
  destruct (WriteTo err) as [render|] eqn:Hw; cbn; [rewrite Hw|]; auto.
Qed.

End Push.

Section Stream.
Context `{pkg : Pkg} {S : Type}.
Context {raft : Raft S} {snapSaver : SnapshotSaver S} {peers : peerGetter S}.

(** Run the stream handler through its method test, the compatibility
    check, the path and the sender id, given that they pass. *)
Ltac stream_through Hm Hp Ht Hf :=
  let Hv := fresh "Hv" in
  let Hc := fresh "Hc" in
  apply passes_dec in Hp; destruct Hp as [Hv Hc];
  unfold version_error in Hv;
  unfold streamHandler_ServeHTTP, after; rewrite Hm; cbn;
  rewrite Hv; cbn; rewrite Hc; cbn; rewrite Ht, Hf; cbn.

(** X12: a GET that passes the compatibility check and has a recognised
    path but a sender id that IDFromString refuses is answered 404 with
    the text "invalid from"; neither the engine nor the peer directory
    is asked. *)
Theorem malformed_sender_not_found
    (h : streamHandler) (r : http.Request) (b : Body) (s : S)
    (t : streamType) (err : error) :
  http.Method r = "GET" ->
  passes (http.Header_ r) (streamHandler_cid h) ->
  streamTypeOfDir (path.Dir (http.URL_Path r)) = Some t ->
  IDFromString (path.Base (http.URL_Path r)) = Err err ->
  let σ' := after (streamHandler_ServeHTTP h r) (start b s) in
  http.status (rw σ') = http.StatusNotFound /\
  http.written (rw σ') = "invalid from" ++ newline /\
  existsb is_collaborator (trace σ') = false /\
  ext σ' = s.
Proof.
  intros Hm Hp Ht Hf. apply passes_dec in Hp. destruct Hp as [Hv Hc].
  unfold version_error in Hv.
  unfold streamHandler_ServeHTTP, after. rewrite Hm. cbn.
  rewrite Hv. cbn. rewrite Hc. cbn. rewrite Ht, Hf. cbn. auto.
Qed.

(** X13: a GET that is through the checks up to the sender id, whose
    sender the engine does not hold as removed but the peer directory
    does not know, is answered 404 with the text "error sender not
    found"; nothing is attached, and the handler returns. *)
Theorem unknown_sender_not_found
    (h : streamHandler) (r : http.Request) (b : Body) (s s1 s2 : S)
    (t : streamType) (from : ID) :
  http.Method r = "GET" ->
  passes (http.Header_ r) (streamHandler_cid h) ->
  streamTypeOfDir (path.Dir (http.URL_Path r)) = Some t ->
  IDFromString (path.Base (http.URL_Path r)) = Ok from ->
  IsIDRemoved from s = (false, s1) ->
  Get from s1 = (None, s2) ->
  let σ' := after (streamHandler_ServeHTTP h r) (start b s) in
  fst (run (streamHandler_ServeHTTP h r) (start b s)) = Finished tt /\
  http.status (rw σ') = http.StatusNotFound /\
  http.written (rw σ') = "error sender not found" ++ newline /\
  List.filter is_collaborator (trace σ')
  = [Ev (RaftIsIDRemoved from) false; Ev (PeerGet from) None] /\
  ext σ' = s2.
Proof.
  intros Hm Hp Ht Hf Hrm Hget. cbn zeta.
  stream_through Hm Hp Ht Hf. rewrite Hrm. cbn. rewrite Hget. cbn. auto 6.
Qed.

(** X14: a GET that is through the checks up to a known, present sender
    but whose X-Raft-To header is not this member's id is answered 412
    with the text "to field mismatch"; nothing is attached, no close
    notifier is made, and the handler returns. *)
Theorem wrong_recipient_refused
    (h : streamHandler) (r : http.Request) (b : Body) (s s1 s2 : S)
    (t : streamType) (from : ID) (p : Peer) :
  http.Method r = "GET" ->
  passes (http.Header_ r) (streamHandler_cid h) ->
  streamTypeOfDir (path.Dir (http.URL_Path r)) = Some t ->
  IDFromString (path.Base (http.URL_Path r)) = Ok from ->
  IsIDRemoved from s = (false, s1) ->
  Get from s1 = (Some p, s2) ->
  http.Get (http.Header_ r) "X-Raft-To" <> ID_String (streamHandler_id h) ->
  let σ' := after (streamHandler_ServeHTTP h r) (start b s) in
  fst (run (streamHandler_ServeHTTP h r) (start b s)) = Finished tt /\
  http.status (rw σ') = http.StatusPreconditionFailed /\
  http.written (rw σ') = "to field mismatch" ++ newline /\
  existsb is_attach (trace σ') = false /\
  chans σ' = [] /\
  ext σ' = s2.
Proof.
  intros Hm Hp Ht Hf Hrm Hget Hto. cbn zeta. apply String.eqb_neq in Hto.
  stream_through Hm Hp Ht Hf. rewrite Hrm. cbn. rewrite Hget. cbn.
  rewrite Hto. cbn. auto 8.
Qed.


(** X16: whenever the stream handler attaches a connection, every test
    before it has passed: the method is GET, the compatibility check
    passes, the path has a recognised directory, whose type the
    connection carries together with the request's X-Raft-Term, the
    sender id is well formed, the engine has said it is not removed, the
    directory has returned a peer, and X-Raft-To names this member. *)
Theorem attach_only_after_all_tests
    (h : streamHandler) (r : http.Request) (b : Body) (s : S)
    (conn : outgoingConn.type) :
  let σ' := after (streamHandler_ServeHTTP h r) (start b s) in
  In (Some conn) (map attached_conn (trace σ')) ->
  http.Method r = "GET" /\
  passes (http.Header_ r) (streamHandler_cid h) /\
  streamTypeOfDir (path.Dir (http.URL_Path r)) = Some (outgoingConn.t conn) /\
  outgoingConn.termStr conn = http.Get (http.Header_ r) "X-Raft-Term" /\
  (exists from, IDFromString (path.Base (http.URL_Path r)) = Ok from /\
                existsb (asked_about from) (trace σ') = true) /\
  existsb said_present (trace σ') = true /\
  existsb found_peer (trace σ') = true /\
  http.Get (http.Header_ r) "X-Raft-To" = ID_String (streamHandler_id h).
Proof.
  cbn zeta. rewrite passes_dec. unfold version_error, streamHandler_ServeHTTP.
  exec; intros Hin; cbn in Hin;
    repeat (destruct Hin as [Hin|Hin]; try discriminate Hin); try contradiction.
  injection Hin as <-. cbn.
  repeat match goal with
         | E : negb _ = false |- _ => apply negb_false_iff in E
         end.
  repeat split; auto.
  - by apply String.eqb_eq.
  - eexists. split; [reflexivity|]. cbn. by rewrite N.eqb_refl.
  - by apply String.eqb_eq.
Qed.

(** X17: the responses of the stream handler to a GET carry
    X-Server-Version set to version.Version, on every outcome; the
    message and the snapshot handler never set that header themselves. *)
Theorem server_version_on_stream_only
    (H : Handler) (r : http.Request) (b : Body) (s : S) :
  let σ' := after (ServeHTTP H r) (start b s) in
  match H with
  | StreamHandler _ =>
      http.Method r = "GET" ->
      http.Get (http.responseHeader (rw σ')) "X-Server-Version" = version_Version
  | _ =>
      existsb is_WriteTo (trace σ') = false ->
      http.Get (http.responseHeader (rw σ')) "X-Server-Version" = EmptyString
  end.
Proof.
  cbn zeta.
  destruct H as [h|h|h]; cbn [ServeHTTP];
    [ unfold handler_ServeHTTP | unfold snapshotHandler_ServeHTTP
    | intros Hm; unfold streamHandler_ServeHTTP; rewrite Hm ];
    unfold after; cbn -[http.Get http.Set_];
    repeat (exec_step; cbn -[http.Get http.Set_]); subst;
    try (intros Hw; try discriminate Hw);
    unfold http.HeaderSet, http.responseHeader; cbn -[http.Get http.Set_];
    header_lookup; reflexivity.
Qed.

End Stream.

Section Notifier.
Context `{pkg : Pkg} {S : Type}.
Context {raft : Raft S} {snapSaver : SnapshotSaver S} {peers : peerGetter S}.

(** Channels are never deallocated. *)
Lemma step_keeps_allocated {X : Type} (c : Call X) (x : X) (σ σ' : World S) :
  step c σ = Next x σ' -> (length (chans σ) <= length (chans σ'))%nat.
Proof.
  intros Hstep.
  destruct c; cbn in Hstep; step_cases Hstep; try lia.
  - rewrite length_app. cbn. lia.
  - rewrite length_insert. lia.
Qed.

Lemma reach_keeps_allocated (allowed : Event -> bool) (σ σ' : World S) :
  reach allowed σ σ' -> (length (chans σ) <= length (chans σ'))%nat.
Proof.
  induction 1 as [|σ σ1 σ2 X c x _ IH Hstep _]; [lia|].
  cbn. apply step_keeps_allocated in Hstep. lia.
Qed.

Lemma newCloseNotifier_fresh (n : closeNotifier) (σ0 σ1 : World S) :
  run newCloseNotifier σ0 = (Finished n, σ1) ->
  done n = chan_at (length (chans σ0)) /\
  chans σ1 = (chans σ0 ++ [false])%list.
Proof.
  unfold newCloseNotifier. cbn. intros [= <- <-]. auto.
Qed.

Lemma fresh_is_open (cs : list bool) :
  is_open (cs ++ [false]) (chan_at (length cs)) = true.
Proof. cbn. rewrite lookup_app_r by done. by rewrite Nat.sub_diag. Qed.

(** X18: a close notifier from newCloseNotifier that nobody has closed
    makes every receive from its closeNotify channel wait, whatever else
    has happened since it was made: the waiter is held until Close. *)
Theorem wait_before_Close_waits
    (n : closeNotifier) (σ0 σ1 σ2 : World S) (k : nat) :
  run newCloseNotifier σ0 = (Finished n, σ1) ->
  reach (fun e => negb (closes (done n) e)) σ1 σ2 ->
  run (waits n (Datatypes.S k)) σ2 = (Blocked (waits n (Datatypes.S k)), σ2).
Proof.
  intros Hnew Hreach.
  destruct (newCloseNotifier_fresh Hnew) as [Hn Hcs].
  assert (Hopen : is_open (chans σ2) (done n) = true).
  { eapply reach_keeps_open; [exact Hreach|]. rewrite Hn, Hcs. apply fresh_is_open. }
  cbn -[is_closed]. unfold closeNotify.
  by rewrite (open_not_closed _ _ Hopen).
Qed.

(** X19: two close notifiers made by two calls of newCloseNotifier have
    different channels, whatever happens between the calls; firing the
    first leaves the second open, so that a waiter on the second is
    still held and the second can still be closed without a panic. *)
Theorem notifiers_are_independent
    (n1 n2 : closeNotifier) (σ0 σ1 σ2 σ3 σ4 : World S) :
  run newCloseNotifier σ0 = (Finished n1, σ1) ->
  reach (fun _ => true) σ1 σ2 ->
  run newCloseNotifier σ2 = (Finished n2, σ3) ->
  run (closeNotifier_Close n1) σ3 = (Finished None, σ4) ->
  done n1 <> done n2 /\
  run (waits n2 1) σ4 = (Blocked (waits n2 1), σ4) /\
  exists σ5, run (closeNotifier_Close n2) σ4 = (Finished None, σ5).
Proof.
  intros Hnew1 Hreach Hnew2 Hclose.
  destruct (newCloseNotifier_fresh Hnew1) as [Hn1 Hcs1].
  destruct (newCloseNotifier_fresh Hnew2) as [Hn2 Hcs2].
  apply reach_keeps_allocated in Hreach.
  assert (Hlt : (length (chans σ0) < length (chans σ2))%nat).
  { rewrite Hcs1, length_app in Hreach. cbn in Hreach. lia. }
  assert (Hne : done n1 <> done n2) by (rewrite Hn1, Hn2; intros [= ?]; lia).
  assert (Hopen : is_open (chans σ4) (done n2) = true).
  { unfold closeNotifier_Close in Hclose. cbn -[is_open is_closed] in Hclose.
    rewrite Hn1 in Hclose, Hne. rewrite Hn2 in Hne |- *.
    destruct (is_open (chans σ3) (chan_at (length (chans σ0)))) eqn:E;
      [|destruct (is_closed _ _); discriminate].
    injection Hclose as <-. cbn.
    rewrite list_lookup_insert_ne by congruence.
    rewrite Hcs2. rewrite lookup_app_r by done. by rewrite Nat.sub_diag. }
  split; [exact Hne|]. split.
  - cbn -[is_closed]. unfold closeNotify.
    by rewrite (open_not_closed _ _ Hopen).
  - unfold closeNotifier_Close. cbn -[is_open is_closed].
    destruct (done n2) as [|a] eqn:E; [discriminate|].
    rewrite Hopen. eexists. reflexivity.
Qed.

(** What the stream handler leaves to run when it waits. *)
Lemma stream_outcome_shape
    (h : streamHandler) (r : http.Request) (b : Body) (s : S) :
  match fst (run (streamHandler_ServeHTTP h r) (start b s)) with
  | Blocked rest =>
      rest = call (ChanRecv (chan_at 0)) /\
      chans (after (streamHandler_ServeHTTP h r) (start b s)) = [false] /\
      exists p t,
        List.filter is_attach (trace (after (streamHandler_ServeHTTP h r) (start b s)))
        = [Ev (PeerAttach p {| outgoingConn.t := t;
                               outgoingConn.termStr :=
                                 http.Get (http.Header_ r) "X-Raft-Term";
                               outgoingConn.Closer := {| done := chan_at 0 |} |}) tt]
  | _ => True
  end.
Proof.
  unfold streamHandler_ServeHTTP.
  exec; try exact I. cbn. eauto.
Qed.

Lemma stream_waits_on_its_notifier
    (h : streamHandler) (r : http.Request) (b : Body) (s : S)
    (rest : Prog unit) (σ' : World S) :
  run (streamHandler_ServeHTTP h r) (start b s) = (Blocked rest, σ') ->
  rest = call (ChanRecv (chan_at 0)) /\
  chans σ' = [false] /\
  exists p t,
    List.filter is_attach (trace σ')
    = [Ev (PeerAttach p {| outgoingConn.t := t;
                           outgoingConn.termStr :=
                             http.Get (http.Header_ r) "X-Raft-Term";
                           outgoingConn.Closer := {| done := chan_at 0 |} |}) tt].
Proof.
  intros Hrun. pose proof (stream_outcome_shape h r b s) as Hshape.
  unfold after in Hshape. rewrite Hrun in Hshape. exact Hshape.
Qed.

(** X20: when the stream handler waits, the close notifier it waits on
    is the Closer of the one connection it has attached; as long as
    nobody calls Close on that Closer the handler stays waiting, and once
    Close has been called on it the handler returns, whatever else has
    happened in between, without writing to the response again. *)
Theorem stream_returns_when_Closer_fires
    (h : streamHandler) (r : http.Request) (b : Body) (s : S)
    (rest : Prog unit) (σ' : World S) :
  run (streamHandler_ServeHTTP h r) (start b s) = (Blocked rest, σ') ->
  exists p conn,
    List.filter is_attach (trace σ') = [Ev (PeerAttach p conn) tt] /\
    (forall σ1,
       reach (fun e => negb (closes (done (outgoingConn.Closer conn)) e)) σ' σ1 ->
       run rest σ1 = (Blocked rest, σ1)) /\
    (forall σ1 σ2 σ3,
       reach (fun _ => true) σ' σ1 ->
       run (closeNotifier_Close (outgoingConn.Closer conn)) σ1 = (Finished None, σ2) ->
       reach (fun _ => true) σ2 σ3 ->
       fst (run rest σ3) = Finished tt /\ rw (after rest σ3) = rw σ3).
Proof.
  intros Hrun.
  destruct (stream_waits_on_its_notifier _ _ _ _ Hrun) as (-> & Hcs & p & t & Hatt).
  eexists p, _. split; [exact Hatt|]. cbn [outgoingConn.Closer done]. split.
  - intros σ1 Hr1.
    assert (Hopen : is_open (chans σ1) (chan_at 0) = true).
    { eapply reach_keeps_open; [exact Hr1|]. by rewrite Hcs. }
    cbn -[is_closed]. by rewrite (open_not_closed _ _ Hopen).
  - intros σ1 σ2 σ3 Hr1 Hclose Hr3.
    assert (Hclosed : is_closed (chans σ3) (chan_at 0) = true).
    { eapply reach_keeps_closed; [exact Hr3|].
      unfold closeNotifier_Close in Hclose. cbn -[is_open is_closed] in Hclose.
      destruct (is_open (chans σ1) (chan_at 0)) eqn:E;
        [|destruct (is_closed _ _); discriminate].
      injection Hclose as <-. cbn in E |- *.
      destruct (chans σ1 !! 0%nat) as [[]|] eqn:E0; try discriminate.
      rewrite list_lookup_insert_eq; [done|]. by eapply lookup_lt_Some. }
    unfold after. cbn -[is_closed]. rewrite Hclosed. auto.
Qed.

End Notifier.

Section SenderId.
Context `{pkg : Pkg} {S : Type}.
Context {raft : Raft S} {snapSaver : SnapshotSaver S} {peers : peerGetter S}.

Lemma trim_no_slash (id : string) :
  path.has_slash id = false -> path.trim_trailing_slashes id = id.
Proof.
  induction id as [|c id IH]; [reflexivity|]. cbn.
  intros Hs. apply orb_false_iff in Hs. destruct Hs as [Hc Hid].
  rewrite (IH Hid). rewrite Hc. by destruct id.
Qed.

Lemma trim_app (prefix rest : string) :
  path.trim_trailing_slashes rest <> EmptyString ->
  path.trim_trailing_slashes (prefix ++ rest) = prefix ++ path.trim_trailing_slashes rest.
Proof.
  intros Hne. induction prefix as [|c prefix IH]; [reflexivity|].
  change (String c prefix ++ rest) with (String c (prefix ++ rest)).
  cbn [path.trim_trailing_slashes]. rewrite IH.
  change (String c prefix ++ path.trim_trailing_slashes rest)
    with (String c (prefix ++ path.trim_trailing_slashes rest)).
  destruct (prefix ++ path.trim_trailing_slashes rest) eqn:E; [exfalso|reflexivity].
  destruct prefix; [|discriminate E].
  change (EmptyString ++ path.trim_trailing_slashes rest)
    with (path.trim_trailing_slashes rest) in E. contradiction.
Qed.

(** The last element of [prefix/<id>] is [<id>]. *)
Lemma Base_app (prefix id : string) :
  path.has_slash id = false -> id <> EmptyString ->
  path.Base (prefix ++ String "/" id) = id.
Proof.
  intros Hid Hne. unfold path.Base.
  assert (Htrim : path.trim_trailing_slashes (prefix ++ String "/" id)
                  = prefix ++ String "/" id).
  { assert (Hrest : path.trim_trailing_slashes (String "/" id) = String "/" id).
    { cbn. rewrite (trim_no_slash _ Hid). by destruct id. }
    rewrite trim_app; rewrite Hrest; [reflexivity|discriminate]. }
  rewrite Htrim, (Split_app _ _ Hid). cbn.
  destruct (prefix ++ String "/" id) eqn:E.
  - destruct prefix; discriminate E.
  - by destruct id.
Qed.

(** X21: on a path /raft/stream/<id>, /raft/stream/msgapp/<id> or
    /raft/stream/message/<id> with a non-empty <id> free of slashes, the
    sender the stream handler works with is IDFromString(<id>): a GET
    that passes the compatibility check is answered 404 "invalid from"
    when <id> is refused, and otherwise the engine is asked whether that
    very id was removed. *)
Theorem sender_is_last_path_element
    (h : streamHandler) (r : http.Request) (b : Body) (s : S)
    (prefix id : string) :
  In prefix ["/raft/stream"; "/raft/stream/msgapp"; "/raft/stream/message"] ->
  path.has_slash id = false -> id <> EmptyString ->
  http.URL_Path r = prefix ++ "/" ++ id ->
  http.Method r = "GET" ->
  passes (http.Header_ r) (streamHandler_cid h) ->
  let σ' := after (streamHandler_ServeHTTP h r) (start b s) in
  match IDFromString id with
  | Err _ =>
      http.status (rw σ') = http.StatusNotFound /\
      http.written (rw σ') = "invalid from" ++ newline
  | Ok from => existsb (asked_about from) (trace σ') = true
  end.
Proof.
  intros Hpre Hid Hne Hpath Hm Hp. cbn zeta.
  assert (Hbase : path.Base (http.URL_Path r) = id).
  { rewrite Hpath. change (prefix ++ "/" ++ id) with (prefix ++ String "/" id).
    by apply Base_app. }
  assert (Hdir : exists t, streamTypeOfDir (path.Dir (http.URL_Path r)) = Some t).
  { assert (Hform : of_form prefix (http.URL_Path r)) by (exists id; auto).
    rewrite (Dir_of_form Hform).
    cbn in Hpre. destruct Hpre as [<-|[<-|[<-|[]]]]; eexists; reflexivity. }
  destruct Hdir as [t Ht].
  apply passes_dec in Hp. destruct Hp as [Hv Hc]. unfold version_error in Hv.
  unfold streamHandler_ServeHTTP, after. rewrite Hm. cbn.
  rewrite Hv. cbn. rewrite Hc. cbn. rewrite Ht, Hbase.
  destruct (IDFromString id) as [from|err]; cbn -[N.eqb]; [|auto].
  repeat (exec_step; cbn -[N.eqb]); rewrite N.eqb_refl; reflexivity.
Qed.

End SenderId.

(** ** The properties at work on the small cluster *)

#[local] Existing Instances Demo.pkg Demo.raft Demo.snapSaver Demo.peers.

(** C1, refuted as stated: a GET to the message handler with a foreign
    cluster identity is answered 405, not 412. *)
Lemma foreign_cluster_wrong_method_405 :
  let H := MessageHandler Demo.message_handler in
  let r := Demo.request "GET" "/raft" [("X-Etcd-Cluster-ID", "9")] in
  let w := rw (after (ServeHTTP H r) (start (Demo.bytes []) Demo.cluster)) in
  ~ cluster_matches (http.Header_ r) (cid_of H) /\
  http.status w = http.StatusMethodNotAllowed /\
  http.status w <> http.StatusPreconditionFailed.
Proof.
  cbn zeta. split; [vm_compute; discriminate|].
  split; [vm_compute; reflexivity | vm_compute; discriminate].
Qed.

Lemma cluster_mismatch_answered_412_witness :
  let H := StreamHandler Demo.stream_handler in
  let r := Demo.request "GET" "/no/such/path" [("X-Etcd-Cluster-ID", "9")] in
  http.Method r = method_of H /\
  ~ cluster_matches (http.Header_ r) (cid_of H) /\
  http.status (rw (after (ServeHTTP H r) (start (Demo.bytes []) Demo.cluster)))
  = http.StatusPreconditionFailed.
Proof.
  cbn zeta. split; [reflexivity|]. split; [vm_compute; discriminate|].
  apply cluster_mismatch_answered_412; [reflexivity | vm_compute; discriminate].
Defined.






(** C4, refuted as stated: [/raft/stream/x/../2] lies under the stream
    prefix and has none of the three forms, yet it is not answered 404:
    its cleaned directory is [/raft/stream], the stream is accepted with
    200 and attached with the legacy type. *)
Lemma unclean_path_accepted :
  let p := "/raft/stream/x/../2" in
  let r := Demo.request "GET" p [("X-Etcd-Cluster-ID", "1"); ("X-Raft-To", "1")] in
  let σ' := after (streamHandler_ServeHTTP Demo.stream_handler r)
                  (start (Demo.bytes []) Demo.cluster) in
  String.prefix "/raft/stream/" p = true /\
  ~ of_form "/raft/stream" p /\
  ~ of_form "/raft/stream/msgapp" p /\
  ~ of_form "/raft/stream/message" p /\
  path.Dir p = "/raft/stream" /\
  http.status (rw σ') = http.StatusOK /\
  http.status (rw σ') <> http.StatusNotFound /\
  In (Some streamTypeMsgApp) (map attached_type (trace σ')).
Proof.
  cbn zeta. split; [reflexivity|].
  split; [|split; [|split]]; try (intros (id & Hid & Heq); vm_compute in Heq).
  - inversion Heq; subst. discriminate Hid.
  - discriminate Heq.
  - discriminate Heq.
  - split; [reflexivity|]. split; [vm_compute; reflexivity|].
    split; [vm_compute; discriminate|]. vm_compute. tauto.
Qed.

Lemma stream_type_of_path_witness :
  let r := Demo.request "GET" "/raft/stream/zz/2"
             [("X-Etcd-Cluster-ID", "1"); ("X-Raft-To", "1")] in
  let σ' := after (streamHandler_ServeHTTP Demo.stream_handler r)
                  (start (Demo.bytes []) Demo.cluster) in
  (of_form "/raft/stream/msgapp" "/raft/stream/msgapp/2" /\
   streamTypeOfDir (path.Dir "/raft/stream/msgapp/2") = Some streamTypeMsgAppV2) /\
  http.Method r = "GET" /\
  passes (http.Header_ r) (streamHandler_cid Demo.stream_handler) /\
  http.status (rw σ') = http.StatusNotFound /\
  existsb is_attach (trace σ') = false.
Proof.
  cbn zeta.
  assert (Hform : of_form "/raft/stream/msgapp" "/raft/stream/msgapp/2")
    by (exists "2"; split; reflexivity).
  assert (Hpass : passes (http.Header_ (Demo.request "GET" "/raft/stream/zz/2"
                            [("X-Etcd-Cluster-ID", "1"); ("X-Raft-To", "1")]))
                         (streamHandler_cid Demo.stream_handler))
    by (split; vm_compute; reflexivity).
  destruct (stream_type_of_path Demo.stream_handler
              (Demo.request "GET" "/raft/stream/zz/2"
                 [("X-Etcd-Cluster-ID", "1"); ("X-Raft-To", "1")])
              (Demo.bytes []) Demo.cluster) as [Hforms Hrun].
  split; [split; [exact Hform | exact (proj1 (proj2 (Hforms _)) Hform)]|].
  split; [reflexivity|]. split; [exact Hpass|].
  specialize (Hrun eq_refl Hpass).
  change (streamTypeOfDir (path.Dir (http.URL_Path
            (Demo.request "GET" "/raft/stream/zz/2"
               [("X-Etcd-Cluster-ID", "1"); ("X-Raft-To", "1")])))) with (@None streamType) in Hrun.
  cbn zeta in Hrun. destruct Hrun as (H404 & _ & _ & Hatt).
  split; [exact H404 | exact Hatt].
Defined.

(** An accepted stream: 200 is written and flushed, the connection is
    attached, and the handler waits on its close notifier; once that is
    fired, what is left of the handler returns. *)
Example stream_accepted_until_Close :
  let r := Demo.request "GET" "/raft/stream/message/2"
             [("X-Etcd-Cluster-ID", "1"); ("X-Raft-To", "1"); ("X-Raft-Term", "5")] in
  let '(o, σ) := Demo.serve (StreamHandler Demo.stream_handler) r
                            (Demo.bytes []) Demo.cluster in
  http.status (rw σ) = http.StatusOK /\
  http.flushed (rw σ) = true /\
  Demo.attached (ext σ) = [(2%N, streamTypeMessage)] /\
  match o with
  | Blocked rest =>
      fst (run rest (after (closeNotifier_Close {| done := chan_at 0 |}) σ))
      = Finished tt
  | _ => False
  end.
Proof. vm_compute. repeat split; reflexivity. Qed.


Lemma save_failure_stops_dispatch_witness :
  let h := Demo.snapshot_handler in
  let r := Demo.request "POST" "/raft/snapshot" [("X-Etcd-Cluster-ID", "1")] in
  let b := Demo.bytes [x07; x02; x05; x01; x01] in
  let m := Demo.parse x07 x02 x05 in
  let rest := Demo.bytes [x01; x01] in
  let err := errors.New "no space left on device" in
  let σ' := after (snapshotHandler_ServeHTTP h r) (start b Demo.full_disk) in
  (http.Method r = "POST" /\
   passes (http.Header_ r) (snapshotHandler_cid h) /\
   messageDecoder_decode b = (Ok m, rest) /\
   Message_Type m = MsgSnap /\
   SaveFrom rest (Message_Snapshot_Metadata_Index m) Demo.full_disk
   = (Some err, Demo.full_disk)) /\
  http.status (rw σ') = http.StatusInternalServerError /\
  existsb is_Process (trace σ') = false.
Proof.
  cbn zeta.
  assert (Hpass : passes (http.Header_ (Demo.request "POST" "/raft/snapshot"
                                          [("X-Etcd-Cluster-ID", "1")]))
                         (snapshotHandler_cid Demo.snapshot_handler))
    by (split; vm_compute; reflexivity).
  assert (Hsave : SaveFrom (Demo.bytes [x01; x01])
                    (Message_Snapshot_Metadata_Index (Demo.parse x07 x02 x05))
                    Demo.full_disk
                  = (Some (errors.New "no space left on device"), Demo.full_disk))
    by reflexivity.
  split; [repeat split; try reflexivity; exact (proj1 Hpass) || exact (proj2 Hpass)|].
  destruct (proj1 (save_failure_stops_dispatch (pkg := Demo.pkg) Demo.snapshot_handler
                     (Demo.request "POST" "/raft/snapshot" [("X-Etcd-Cluster-ID", "1")])
                     (Demo.bytes [x07; x02; x05; x01; x01]) Demo.full_disk)
                  (Demo.parse x07 x02 x05) (Demo.bytes [x01; x01])
                  (errors.New "no space left on device") Demo.full_disk
                  eq_refl Hpass eq_refl eq_refl Hsave)
    as (H500 & _ & Hnone).
  split; [exact H500 | exact Hnone].
Defined.


Lemma version_error_reported_first_witness :
  let H := SnapshotHandler Demo.snapshot_handler in
  let r := Demo.request "POST" "/raft/snapshot"
             [("X-Server-Version", "0.1.0"); ("X-Etcd-Cluster-ID", "9")] in
  let w := rw (after (ServeHTTP H r) (start (Demo.bytes []) Demo.cluster)) in
  version_error (http.Header_ r) = Some (errors.New "remote version is too low") /\
  ~ cluster_matches (http.Header_ r) (cid_of H) /\
  http.status w = http.StatusPreconditionFailed /\
  http.written w = "incompatible version" ++ newline.
Proof.
  cbn zeta.
  assert (Hne : ~ cluster_matches
                  (http.Header_ (Demo.request "POST" "/raft/snapshot"
                     [("X-Server-Version", "0.1.0"); ("X-Etcd-Cluster-ID", "9")]))
                  (cid_of (SnapshotHandler Demo.snapshot_handler)))
    by (vm_compute; discriminate).
  assert (Hv : version_error
                 (http.Header_ (Demo.request "POST" "/raft/snapshot"
                    [("X-Server-Version", "0.1.0"); ("X-Etcd-Cluster-ID", "9")]))
               = Some (errors.New "remote version is too low"))
    by (vm_compute; reflexivity).
  split; [exact Hv|]. split; [exact Hne|].
  destruct (proj2 (version_error_reported_first
                     (SnapshotHandler Demo.snapshot_handler)
                     (Demo.request "POST" "/raft/snapshot"
                        [("X-Server-Version", "0.1.0"); ("X-Etcd-Cluster-ID", "9")])
                     (Demo.bytes []) Demo.cluster Hv Hne))
    as [H412 Hbody].
  split; [exact (H412 eq_refl) | exact (Hbody (H412 eq_refl))].
Defined.

(** The zero value of the struct holds a nil channel: its Close panics
    and a receive from it waits.  http.go makes its notifiers with
    newCloseNotifier only. *)
Example zero_closeNotifier :
  let σ := start (Demo.bytes []) Demo.cluster in
  let n := {| done := nil_chan |} in
  fst (run (closeNotifier_Close n) σ) = Panicked "close of nil channel" /\
  fst (run (waits n 1) σ) = Blocked (waits n 1).
Proof. split; reflexivity. Qed.

(** A notifier is made, fired, waited on twice, and then waited on three
    more times. *)
Lemma wait_after_Close_returns_witness :
  let n := {| done := chan_at 0 |} in
  let σ := after newCloseNotifier (start (Demo.bytes []) Demo.cluster) in
  let σ1 := after (closeNotifier_Close n) σ in
  let σ2 := after (waits n 2) σ1 in
  run (closeNotifier_Close n) σ = (Finished None, σ1) /\
  reach (fun _ => true) σ1 σ2 /\
  fst (run (waits n 3) σ2) = Finished tt.
Proof.
  cbn zeta.
  assert (Hclose :
    run (closeNotifier_Close {| done := chan_at 0 |})
        (after newCloseNotifier (start (Demo.bytes []) Demo.cluster))
    = (Finished None,
       after (closeNotifier_Close {| done := chan_at 0 |})
             (after newCloseNotifier (start (Demo.bytes []) Demo.cluster))))
    by reflexivity.
  split; [exact Hclose|]. split; [apply run_reach|].
  eapply wait_after_Close_returns; [exact Hclose | apply run_reach].
Defined.

Lemma Close_once_then_panic_witness :
  let n := {| done := chan_at 0 |} in
  let σ0 := start (Demo.bytes []) Demo.cluster in
  let σ1 := after newCloseNotifier σ0 in
  run newCloseNotifier σ0 = (Finished n, σ1) /\
  reach (fun e => negb (closes (done n) e)) σ1 σ1 /\
  exists σ3,
    run (closeNotifier_Close n) σ1 = (Finished None, σ3) /\
    fst (run (closeNotifier_Close n) σ3) = Panicked "close of closed channel".
Proof.
  cbn zeta.
  assert (Hnew :
    run newCloseNotifier (start (Demo.bytes []) Demo.cluster)
    = (Finished {| done := chan_at 0 |},
       after newCloseNotifier (start (Demo.bytes []) Demo.cluster)))
    by reflexivity.
  split; [exact Hnew|]. split; [apply reach_here|].
  edestruct Close_once_then_panic as (σ3 & Hfirst & Hlater);
    [exact Hnew | apply reach_here |].
  exists σ3. split; [exact Hfirst|]. apply Hlater. apply reach_here.
Defined.

(** ** The further properties at work on the small cluster *)

Lemma rejected_request_touches_nothing_witness :
  let H := newSnapshotHandler 1%N in
  let r := Demo.request "POST" "/raft/snapshot" [("X-Etcd-Cluster-ID", "2")] in
  let b := Demo.bytes [x07; x02; x05; x01; x01] in
  let σ' := after (ServeHTTP H r) (start b Demo.cluster) in
  ~ passes (http.Header_ r) (cid_of H) /\
  existsb touches_payload (trace σ') = false /\
  existsb is_collaborator (trace σ') = false /\
  body σ' = b /\ ext σ' = Demo.cluster.
Proof.
  cbn zeta.
  assert (Hrej : ~ passes (http.Header_ (Demo.request "POST" "/raft/snapshot"
                                           [("X-Etcd-Cluster-ID", "2")]))
                          (cid_of (newSnapshotHandler 1%N)))
    by (intros [_ Hc]; vm_compute in Hc; discriminate Hc).
  split; [exact Hrej|].
  edestruct (rejected_request_touches_nothing (newSnapshotHandler 1%N)
               (Demo.request "POST" "/raft/snapshot" [("X-Etcd-Cluster-ID", "2")])
               (Demo.bytes [x07; x02; x05; x01; x01]) Demo.cluster (or_intror Hrej))
    as (H1 & H2 & H3 & H4 & _).
  auto.
Defined.

Lemma cluster_mismatch_text_witness :
  let H := NewHandler 1%N in
  let r := Demo.request "POST" "/raft" [("X-Etcd-Cluster-ID", "2")] in
  let w := rw (after (ServeHTTP H r) (start (Demo.bytes []) Demo.cluster)) in
  http.Method r = method_of H /\
  version_error (http.Header_ r) = None /\
  ~ cluster_matches (http.Header_ r) (cid_of H) /\
  http.status w = http.StatusPreconditionFailed /\
  http.written w = "cluster ID mismatch" ++ newline.
Proof.
  cbn zeta.
  assert (Hv : version_error (http.Header_ (Demo.request "POST" "/raft"
                                              [("X-Etcd-Cluster-ID", "2")])) = None)
    by (vm_compute; reflexivity).
  assert (Hc : ~ cluster_matches (http.Header_ (Demo.request "POST" "/raft"
                                                  [("X-Etcd-Cluster-ID", "2")]))
                                 (cid_of (NewHandler 1%N)))
    by (vm_compute; discriminate).
  split; [reflexivity|]. split; [exact Hv|]. split; [exact Hc|].
  edestruct (cluster_mismatch_text (NewHandler 1%N)
               (Demo.request "POST" "/raft" [("X-Etcd-Cluster-ID", "2")])
               (Demo.bytes []) Demo.cluster eq_refl Hv Hc) as (H1 & H2 & _).
  auto.
Defined.

Lemma statuses_written_witness :
  let H := newStreamHandler 1%N 1%N in
  let r := Demo.request "GET" "/raft/stream/7"
             [("X-Etcd-Cluster-ID", "1"); ("X-Raft-To", "1")] in
  let σ' := after (ServeHTTP H r) (start (Demo.bytes []) Demo.cluster) in
  existsb is_WriteTo (trace σ') = false /\
  http.sent (rw σ') <> None /\ In (http.status (rw σ')) (statuses_of H).
Proof.
  cbn zeta.
  assert (Hw : existsb is_WriteTo
                 (trace (after (ServeHTTP (newStreamHandler 1%N 1%N)
                                  (Demo.request "GET" "/raft/stream/7"
                                     [("X-Etcd-Cluster-ID", "1"); ("X-Raft-To", "1")]))
                               (start (Demo.bytes []) Demo.cluster))) = false)
    by (vm_compute; reflexivity).
  split; [exact Hw|].
  exact (statuses_written (newStreamHandler 1%N 1%N)
           (Demo.request "GET" "/raft/stream/7"
              [("X-Etcd-Cluster-ID", "1"); ("X-Raft-To", "1")])
           (Demo.bytes []) Demo.cluster Hw).
Defined.

Lemma undecodable_message_rejected_witness :
  let h := Demo.message_handler in
  let r := Demo.request "POST" "/raft" [("X-Etcd-Cluster-ID", "1")] in
  let b := Demo.bytes [x03] in
  let σ' := after (handler_ServeHTTP h r) (start b Demo.cluster) in
  (http.Method r = "POST" /\
   passes (http.Header_ r) (handler_cid h) /\
   readAllLimited b ConnReadLimitByte = (Ok [x03], Demo.bytes []) /\
   Message_Unmarshal [x03] = Err (errors.New "unexpected EOF")) /\
  http.status (rw σ') = http.StatusBadRequest /\
  existsb is_collaborator (trace σ') = false.
Proof.
  cbn zeta.
  assert (Hp : passes (http.Header_ (Demo.request "POST" "/raft"
                                       [("X-Etcd-Cluster-ID", "1")]))
                      (handler_cid Demo.message_handler))
    by (split; vm_compute; reflexivity).
  assert (Hr : readAllLimited (Demo.bytes [x03]) ConnReadLimitByte
               = (Ok [x03], Demo.bytes [])) by reflexivity.
  assert (Hu : Message_Unmarshal [x03] = Err (errors.New "unexpected EOF"))
    by reflexivity.
  split; [auto|].
  edestruct (undecodable_message_rejected (pkg := Demo.pkg) Demo.message_handler
               (Demo.request "POST" "/raft" [("X-Etcd-Cluster-ID", "1")])
               (Demo.bytes [x03]) Demo.cluster eq_refl Hp Hr Hu) as (H1 & _ & H3 & _).
  auto.
Defined.

Lemma message_dispatched_witness :
  let h := Demo.message_handler in
  let r := Demo.request "POST" "/raft" [("X-Etcd-Cluster-ID", "1")] in
  let b := Demo.bytes [x62; x02; x00] in
  let m := Demo.parse x62 x02 x00 in
  let σ' := after (handler_ServeHTTP h r) (start b Demo.cluster) in
  (http.Method r = "POST" /\
   passes (http.Header_ r) (handler_cid h) /\
   readAllLimited b ConnReadLimitByte = (Ok [x62; x02; x00], Demo.bytes []) /\
   Message_Unmarshal [x62; x02; x00] = Ok m /\
   Process m Demo.cluster = (Some Demo.errMemberRemoved, Demo.cluster)) /\
  rw σ' = Demo.forbidden (entered (MessageHandler h)) /\
  http.status (rw σ') = 403.
Proof.
  cbn zeta.
  assert (Hp : passes (http.Header_ (Demo.request "POST" "/raft"
                                       [("X-Etcd-Cluster-ID", "1")]))
                      (handler_cid Demo.message_handler))
    by (split; vm_compute; reflexivity).
  assert (Hr : readAllLimited (Demo.bytes [x62; x02; x00]) ConnReadLimitByte
               = (Ok [x62; x02; x00], Demo.bytes [])) by reflexivity.
  assert (Hu : Message_Unmarshal [x62; x02; x00] = Ok (Demo.parse x62 x02 x00))
    by reflexivity.
  assert (Hproc : Process (Demo.parse x62 x02 x00) Demo.cluster
                  = (Some Demo.errMemberRemoved, Demo.cluster)) by reflexivity.
  split; [auto|].
  edestruct (message_dispatched (pkg := Demo.pkg) Demo.message_handler
               (Demo.request "POST" "/raft" [("X-Etcd-Cluster-ID", "1")])
               (Demo.bytes [x62; x02; x00]) Demo.cluster eq_refl Hp Hr Hu Hproc)
    as (_ & _ & Hrender).
  split; [exact Hrender | vm_compute; reflexivity].
Defined.

Lemma bad_snapshot_envelope_rejected_witness :
  let h := Demo.snapshot_handler in
  let r := Demo.request "POST" "/raft/snapshot" [("X-Etcd-Cluster-ID", "1")] in
  let b := Demo.bytes [x03; x02; x05; x01; x01] in
  let σ' := after (snapshotHandler_ServeHTTP h r) (start b Demo.cluster) in
  (http.Method r = "POST" /\
   passes (http.Header_ r) (snapshotHandler_cid h) /\
   messageDecoder_decode b = (Ok (Demo.parse x03 x02 x05), Demo.bytes [x01; x01]) /\
   Message_Type (Demo.parse x03 x02 x05) <> MsgSnap) /\
  http.status (rw σ') = http.StatusBadRequest /\
  http.written (rw σ') = "wrong raft message type" ++ newline /\
  existsb is_collaborator (trace σ') = false.
Proof.
  cbn zeta.
  assert (Hp : passes (http.Header_ (Demo.request "POST" "/raft/snapshot"
                                       [("X-Etcd-Cluster-ID", "1")]))
                      (snapshotHandler_cid Demo.snapshot_handler))
    by (split; vm_compute; reflexivity).
  assert (Hd : messageDecoder_decode (Demo.bytes [x03; x02; x05; x01; x01])
               = (Ok (Demo.parse x03 x02 x05), Demo.bytes [x01; x01])) by reflexivity.
  assert (Ht : Message_Type (Demo.parse x03 x02 x05) <> MsgSnap)
    by (vm_compute; discriminate).
  split; [auto|].
  edestruct (bad_snapshot_envelope_rejected (pkg := Demo.pkg) Demo.snapshot_handler
               (Demo.request "POST" "/raft/snapshot" [("X-Etcd-Cluster-ID", "1")])
               (Demo.bytes [x03; x02; x05; x01; x01]) Demo.cluster eq_refl Hp Hd Ht)
    as (H1 & H2 & H3 & _).
  auto.
Defined.

Lemma snapshot_saved_then_dispatched_witness :
  let h := Demo.snapshot_handler in
  let r := Demo.request "POST" "/raft/snapshot" [("X-Etcd-Cluster-ID", "1")] in
  let b := Demo.bytes [x07; x02; x05; x01; x01] in
  let m := Demo.parse x07 x02 x05 in
  let σ' := after (snapshotHandler_ServeHTTP h r) (start b Demo.cluster) in
  (http.Method r = "POST" /\
   passes (http.Header_ r) (snapshotHandler_cid h) /\
   messageDecoder_decode b = (Ok m, Demo.bytes [x01; x01]) /\
   Message_Type m = MsgSnap /\
   SaveFrom (Demo.bytes [x01; x01]) (Message_Snapshot_Metadata_Index m) Demo.cluster
   = (None, Demo.cluster) /\
   Process m Demo.cluster = (None, Demo.cluster)) /\
  ext σ' = Demo.cluster /\
  http.status (rw σ') = http.StatusNoContent.
Proof.
  cbn zeta.
  assert (Hp : passes (http.Header_ (Demo.request "POST" "/raft/snapshot"
                                       [("X-Etcd-Cluster-ID", "1")]))
                      (snapshotHandler_cid Demo.snapshot_handler))
    by (split; vm_compute; reflexivity).
  assert (Hd : messageDecoder_decode (Demo.bytes [x07; x02; x05; x01; x01])
               = (Ok (Demo.parse x07 x02 x05), Demo.bytes [x01; x01])) by reflexivity.
  assert (Ht : Message_Type (Demo.parse x07 x02 x05) = MsgSnap) by reflexivity.
  assert (Hs : SaveFrom (Demo.bytes [x01; x01])
                 (Message_Snapshot_Metadata_Index (Demo.parse x07 x02 x05)) Demo.cluster
               = (None, Demo.cluster)) by reflexivity.
  assert (Hproc : Process (Demo.parse x07 x02 x05) Demo.cluster = (None, Demo.cluster))
    by reflexivity.
  split; [auto 6|].
  edestruct (snapshot_saved_then_dispatched (pkg := Demo.pkg) Demo.snapshot_handler
               (Demo.request "POST" "/raft/snapshot" [("X-Etcd-Cluster-ID", "1")])
               (Demo.bytes [x07; x02; x05; x01; x01]) Demo.cluster
               eq_refl Hp Hd Ht Hs Hproc) as (Hext & _ & Hsent & _).
  split; [exact Hext|]. unfold http.status. rewrite Hsent. reflexivity.
Defined.

Lemma malformed_sender_not_found_witness :
  let h := Demo.stream_handler in
  let r := Demo.request "GET" "/raft/stream/msgapp/xyz"
             [("X-Etcd-Cluster-ID", "1"); ("X-Raft-To", "1")] in
  let σ' := after (streamHandler_ServeHTTP h r) (start (Demo.bytes []) Demo.cluster) in
  (http.Method r = "GET" /\
   passes (http.Header_ r) (streamHandler_cid h) /\
   streamTypeOfDir (path.Dir (http.URL_Path r)) = Some streamTypeMsgAppV2 /\
   IDFromString (path.Base (http.URL_Path r)) = Err (errors.New "invalid syntax")) /\
  http.status (rw σ') = http.StatusNotFound /\
  existsb is_collaborator (trace σ') = false.
Proof.
  cbn zeta.
  assert (Hp : passes (http.Header_ (Demo.request "GET" "/raft/stream/msgapp/xyz"
                                       [("X-Etcd-Cluster-ID", "1"); ("X-Raft-To", "1")]))
                      (streamHandler_cid Demo.stream_handler))
    by (split; vm_compute; reflexivity).
  assert (Ht : streamTypeOfDir (path.Dir (http.URL_Path
                 (Demo.request "GET" "/raft/stream/msgapp/xyz"
                    [("X-Etcd-Cluster-ID", "1"); ("X-Raft-To", "1")])))
               = Some streamTypeMsgAppV2) by reflexivity.
  assert (Hf : IDFromString (path.Base (http.URL_Path
                 (Demo.request "GET" "/raft/stream/msgapp/xyz"
                    [("X-Etcd-Cluster-ID", "1"); ("X-Raft-To", "1")])))
               = Err (errors.New "invalid syntax")) by reflexivity.
  split; [auto|].
  edestruct (malformed_sender_not_found (pkg := Demo.pkg) Demo.stream_handler
               (Demo.request "GET" "/raft/stream/msgapp/xyz" [("X-Etcd-Cluster-ID", "1"); ("X-Raft-To", "1")])
               (Demo.bytes []) Demo.cluster eq_refl Hp Ht Hf) as (H1 & _ & H3 & _).
  auto.
Defined.

Lemma unknown_sender_not_found_witness :
  let h := Demo.stream_handler in
  let r := Demo.request "GET" "/raft/stream/5"
             [("X-Etcd-Cluster-ID", "1"); ("X-Raft-To", "1")] in
  let σ' := after (streamHandler_ServeHTTP h r) (start (Demo.bytes []) Demo.cluster) in
  (http.Method r = "GET" /\
   passes (http.Header_ r) (streamHandler_cid h) /\
   streamTypeOfDir (path.Dir (http.URL_Path r)) = Some streamTypeMsgApp /\
   IDFromString (path.Base (http.URL_Path r)) = Ok 5%N /\
   IsIDRemoved 5%N Demo.cluster = (false, Demo.cluster) /\
   Get 5%N Demo.cluster = (None, Demo.cluster)) /\
  http.status (rw σ') = http.StatusNotFound /\
  http.written (rw σ') = "error sender not found" ++ newline.
Proof.
  cbn zeta.
  assert (Hp : passes (http.Header_ (Demo.request "GET" "/raft/stream/5"
                                       [("X-Etcd-Cluster-ID", "1"); ("X-Raft-To", "1")]))
                      (streamHandler_cid Demo.stream_handler))
    by (split; vm_compute; reflexivity).
  assert (Ht : streamTypeOfDir (path.Dir (http.URL_Path
                 (Demo.request "GET" "/raft/stream/5"
                    [("X-Etcd-Cluster-ID", "1"); ("X-Raft-To", "1")])))
               = Some streamTypeMsgApp) by reflexivity.
  assert (Hf : IDFromString (path.Base (http.URL_Path
                 (Demo.request "GET" "/raft/stream/5"
                    [("X-Etcd-Cluster-ID", "1"); ("X-Raft-To", "1")])))
               = Ok 5%N) by reflexivity.
  assert (Hrm : IsIDRemoved 5%N Demo.cluster = (false, Demo.cluster)) by reflexivity.
  assert (Hget : Get 5%N Demo.cluster = (None, Demo.cluster)) by reflexivity.
  split; [auto 6|].
  edestruct (unknown_sender_not_found (pkg := Demo.pkg) Demo.stream_handler
               (Demo.request "GET" "/raft/stream/5" [("X-Etcd-Cluster-ID", "1"); ("X-Raft-To", "1")])
               (Demo.bytes []) Demo.cluster eq_refl Hp Ht Hf Hrm Hget)
    as (_ & H1 & H2 & _).
  auto.
Defined.

Lemma wrong_recipient_refused_witness :
  let h := Demo.stream_handler in
  let r := Demo.request "GET" "/raft/stream/message/2"
             [("X-Etcd-Cluster-ID", "1"); ("X-Raft-To", "3")] in
  let σ' := after (streamHandler_ServeHTTP h r) (start (Demo.bytes []) Demo.cluster) in
  (http.Method r = "GET" /\
   passes (http.Header_ r) (streamHandler_cid h) /\
   streamTypeOfDir (path.Dir (http.URL_Path r)) = Some streamTypeMessage /\
   IDFromString (path.Base (http.URL_Path r)) = Ok 2%N /\
   IsIDRemoved 2%N Demo.cluster = (false, Demo.cluster) /\
   Get 2%N Demo.cluster = (Some 2%N, Demo.cluster) /\
   http.Get (http.Header_ r) "X-Raft-To" <> ID_String (streamHandler_id h)) /\
  http.status (rw σ') = http.StatusPreconditionFailed /\
  existsb is_attach (trace σ') = false.
Proof.
  cbn zeta.
  assert (Hp : passes (http.Header_ (Demo.request "GET" "/raft/stream/message/2"
                                       [("X-Etcd-Cluster-ID", "1"); ("X-Raft-To", "3")]))
                      (streamHandler_cid Demo.stream_handler))
    by (split; vm_compute; reflexivity).
  assert (Ht : streamTypeOfDir (path.Dir (http.URL_Path
                 (Demo.request "GET" "/raft/stream/message/2"
                    [("X-Etcd-Cluster-ID", "1"); ("X-Raft-To", "3")])))
               = Some streamTypeMessage) by reflexivity.
  assert (Hf : IDFromString (path.Base (http.URL_Path
                 (Demo.request "GET" "/raft/stream/message/2"
                    [("X-Etcd-Cluster-ID", "1"); ("X-Raft-To", "3")])))
               = Ok 2%N) by reflexivity.
  assert (Hrm : IsIDRemoved 2%N Demo.cluster = (false, Demo.cluster)) by reflexivity.
  assert (Hget : Get 2%N Demo.cluster = (Some 2%N, Demo.cluster)) by reflexivity.
  assert (Hto : http.Get (http.Header_ (Demo.request "GET" "/raft/stream/message/2"
                            [("X-Etcd-Cluster-ID", "1"); ("X-Raft-To", "3")])) "X-Raft-To"
                <> ID_String (streamHandler_id Demo.stream_handler))
    by (vm_compute; discriminate).
  split; [auto 8|].
  edestruct (wrong_recipient_refused (pkg := Demo.pkg) Demo.stream_handler
               (Demo.request "GET" "/raft/stream/message/2" [("X-Etcd-Cluster-ID", "1"); ("X-Raft-To", "3")])
               (Demo.bytes []) Demo.cluster eq_refl Hp Ht Hf Hrm Hget Hto)
    as (_ & H1 & _ & H3 & _).
  auto.
Defined.


Lemma attach_only_after_all_tests_witness :
  let h := Demo.stream_handler in
  let r := Demo.request "GET" "/raft/stream/message/2"
             [("X-Etcd-Cluster-ID", "1"); ("X-Raft-To", "1"); ("X-Raft-Term", "5")] in
  let conn := {| outgoingConn.t := streamTypeMessage;
                 outgoingConn.termStr := "5";
                 outgoingConn.Closer := {| done := chan_at 0 |} |} in
  let σ' := after (streamHandler_ServeHTTP h r) (start (Demo.bytes []) Demo.cluster) in
  In (Some conn) (map attached_conn (trace σ')) /\
  http.Method r = "GET" /\
  streamTypeOfDir (path.Dir (http.URL_Path r)) = Some streamTypeMessage /\
  http.Get (http.Header_ r) "X-Raft-To" = ID_String (streamHandler_id h).
Proof.
  cbn zeta.
  assert (Hin : In (Some {| outgoingConn.t := streamTypeMessage;
                            outgoingConn.termStr := "5";
                            outgoingConn.Closer := {| done := chan_at 0 |} |})
                   (map attached_conn
                      (trace (after (streamHandler_ServeHTTP Demo.stream_handler
                                       (Demo.request "GET" "/raft/stream/message/2"
                                          [("X-Etcd-Cluster-ID", "1"); ("X-Raft-To", "1");
                                           ("X-Raft-Term", "5")]))
                                    (start (Demo.bytes []) Demo.cluster)))))
    by (vm_compute; tauto).
  split; [exact Hin|].
  edestruct (attach_only_after_all_tests Demo.stream_handler
               (Demo.request "GET" "/raft/stream/message/2"
                  [("X-Etcd-Cluster-ID", "1"); ("X-Raft-To", "1"); ("X-Raft-Term", "5")])
               (Demo.bytes []) Demo.cluster _ Hin) as (H1 & _ & H3 & _ & _ & _ & _ & H8).
  auto.
Defined.

Lemma server_version_on_stream_only_witness :
  let H := newStreamHandler 1%N 1%N in
  let r := Demo.request "GET" "/raft/stream/7"
             [("X-Etcd-Cluster-ID", "1"); ("X-Raft-To", "1")] in
  let σ' := after (ServeHTTP H r) (start (Demo.bytes []) Demo.cluster) in
  http.Method r = "GET" /\
  http.Get (http.responseHeader (rw σ')) "X-Server-Version" = version_Version.
Proof.
  cbn zeta. split; [reflexivity|].
  exact (server_version_on_stream_only (newStreamHandler 1%N 1%N)
           (Demo.request "GET" "/raft/stream/7"
              [("X-Etcd-Cluster-ID", "1"); ("X-Raft-To", "1")])
           (Demo.bytes []) Demo.cluster eq_refl).
Defined.

Lemma wait_before_Close_waits_witness :
  let n := {| done := chan_at 0 |} in
  let σ0 := start (Demo.bytes []) Demo.cluster in
  let σ1 := after newCloseNotifier σ0 in
  run newCloseNotifier σ0 = (Finished n, σ1) /\
  reach (fun e => negb (closes (done n) e)) σ1 σ1 /\
  run (waits n 2) σ1 = (Blocked (waits n 2), σ1).
Proof.
  cbn zeta.
  assert (Hnew :
    run newCloseNotifier (start (Demo.bytes []) Demo.cluster)
    = (Finished {| done := chan_at 0 |},
       after newCloseNotifier (start (Demo.bytes []) Demo.cluster)))
    by reflexivity.
  split; [exact Hnew|]. split; [apply reach_here|].
  eapply wait_before_Close_waits; [exact Hnew | apply reach_here].
Defined.

Lemma notifiers_are_independent_witness :
  let n1 := {| done := chan_at 0 |} in
  let n2 := {| done := chan_at 1 |} in
  let σ0 := start (Demo.bytes []) Demo.cluster in
  let σ1 := after newCloseNotifier σ0 in
  let σ3 := after newCloseNotifier σ1 in
  let σ4 := after (closeNotifier_Close n1) σ3 in
  (run newCloseNotifier σ0 = (Finished n1, σ1) /\
   reach (fun _ => true) σ1 σ1 /\
   run newCloseNotifier σ1 = (Finished n2, σ3) /\
   run (closeNotifier_Close n1) σ3 = (Finished None, σ4)) /\
  done n1 <> done n2 /\
  run (waits n2 1) σ4 = (Blocked (waits n2 1), σ4).
Proof.
  cbn zeta.
  assert (Hnew1 :
    run newCloseNotifier (start (Demo.bytes []) Demo.cluster)
    = (Finished {| done := chan_at 0 |},
       after newCloseNotifier (start (Demo.bytes []) Demo.cluster)))
    by reflexivity.
  assert (Hnew2 :
    run newCloseNotifier (after newCloseNotifier (start (Demo.bytes []) Demo.cluster))
    = (Finished {| done := chan_at 1 |},
       after newCloseNotifier
         (after newCloseNotifier (start (Demo.bytes []) Demo.cluster))))
    by reflexivity.
  assert (Hclose :
    run (closeNotifier_Close {| done := chan_at 0 |})
        (after newCloseNotifier
           (after newCloseNotifier (start (Demo.bytes []) Demo.cluster)))
    = (Finished None,
       after (closeNotifier_Close {| done := chan_at 0 |})
         (after newCloseNotifier
            (after newCloseNotifier (start (Demo.bytes []) Demo.cluster)))))
    by reflexivity.
  split; [split; [exact Hnew1|split; [apply reach_here|split; [exact Hnew2|exact Hclose]]]|].
  edestruct notifiers_are_independent as (H1 & H2 & _);
    [exact Hnew1 | apply reach_here | exact Hnew2 | exact Hclose |].
  split; [exact H1 | exact H2].
Defined.

Lemma stream_returns_when_Closer_fires_witness :
  let h := Demo.stream_handler in
  let r := Demo.request "GET" "/raft/stream/message/2"
             [("X-Etcd-Cluster-ID", "1"); ("X-Raft-To", "1"); ("X-Raft-Term", "5")] in
  let σ' := after (streamHandler_ServeHTTP h r) (start (Demo.bytes []) Demo.cluster) in
  let rest := call (ChanRecv (chan_at 0)) in
  run (streamHandler_ServeHTTP h r) (start (Demo.bytes []) Demo.cluster)
  = (Blocked rest, σ') /\
  exists p conn,
    List.filter is_attach (trace σ') = [Ev (PeerAttach p conn) tt] /\
    run rest σ' = (Blocked rest, σ').
Proof.
  cbn zeta.
  assert (Hrun :
    run (streamHandler_ServeHTTP Demo.stream_handler
           (Demo.request "GET" "/raft/stream/message/2"
              [("X-Etcd-Cluster-ID", "1"); ("X-Raft-To", "1"); ("X-Raft-Term", "5")]))
        (start (Demo.bytes []) Demo.cluster)
    = (Blocked (call (ChanRecv (chan_at 0))),
       after (streamHandler_ServeHTTP Demo.stream_handler
                (Demo.request "GET" "/raft/stream/message/2"
                   [("X-Etcd-Cluster-ID", "1"); ("X-Raft-To", "1"); ("X-Raft-Term", "5")]))
             (start (Demo.bytes []) Demo.cluster))).
  { unfold after.
    rewrite (surjective_pairing (run _ (start (Demo.bytes []) Demo.cluster))) at 1.
    apply (f_equal (fun o => (o, _))). vm_compute. reflexivity. }
  split; [exact Hrun|].
  destruct (stream_returns_when_Closer_fires _ _ _ _ Hrun) as (p & conn & Hatt & Hwait & _).
  exists p, conn. split; [exact Hatt|]. apply Hwait. apply reach_here.
Defined.

Lemma sender_is_last_path_element_witness :
  let h := Demo.stream_handler in
  let r := Demo.request "GET" "/raft/stream/msgapp/7"
             [("X-Etcd-Cluster-ID", "1"); ("X-Raft-To", "1")] in
  let σ' := after (streamHandler_ServeHTTP h r) (start (Demo.bytes []) Demo.cluster) in
  (In "/raft/stream/msgapp" ["/raft/stream"; "/raft/stream/msgapp"; "/raft/stream/message"] /\
   path.has_slash "7" = false /\ "7" <> EmptyString /\
   http.URL_Path r = "/raft/stream/msgapp" ++ "/" ++ "7" /\
   http.Method r = "GET" /\
   passes (http.Header_ r) (streamHandler_cid h)) /\
  existsb (asked_about 7%N) (trace σ') = true.
Proof.
  cbn zeta.
  assert (Hp : passes (http.Header_ (Demo.request "GET" "/raft/stream/msgapp/7"
                                       [("X-Etcd-Cluster-ID", "1"); ("X-Raft-To", "1")]))
                      (streamHandler_cid Demo.stream_handler))
    by (split; vm_compute; reflexivity).
  assert (Hin : In "/raft/stream/msgapp"
                   ["/raft/stream"; "/raft/stream/msgapp"; "/raft/stream/message"])
    by (right; left; reflexivity).
  assert (Hne : "7" <> EmptyString) by discriminate.
  split; [repeat split; auto|].
  exact (sender_is_last_path_element (pkg := Demo.pkg)
           (prefix := "/raft/stream/msgapp") (id := "7") Demo.stream_handler
           (Demo.request "GET" "/raft/stream/msgapp/7"
              [("X-Etcd-Cluster-ID", "1"); ("X-Raft-To", "1")])
           (Demo.bytes []) Demo.cluster
           Hin eq_refl Hne eq_refl eq_refl Hp).
Defined.
